(** * Ingestion and query lambdas: a shallow embedding

    Source files embedded here:
    - [lambdas/document_ingestion/index.py]: [extract_text_from_docx],
      [extract_text_from_file], [lambda_handler];
    - [lambdas/ai_search/index.py]: [generate_response].

    Python [str] values are lists of Unicode code points, [bytes] values are
    lists of octets.  The collaborators (object storage, the converter
    process, the layout-analysis service, the search index, the generation
    service, the clock) answer as a function of the interaction history, and
    every call is recorded in that history.  Loops that the source writes as
    [while True] are run with a fuel argument; running out of fuel is a
    separate outcome that no handler can catch, and it keeps the history
    reached.  What the source prints is not part of the history, and building
    a [boto3] client, which sends no request, is taken to succeed; the
    [_with_clients] variants of the ingestion functions drop that
    assumption and build the clients where the source does. *)

From Stdlib Require Import String Ascii DecimalString.
From Stdlib Require Import NArith ZArith Bool Lia List.
Import ListNotations.

Set Implicit Arguments.

(** ** Python strings *)

Definition codepoint := N.
Definition str := list codepoint.
Definition bytes := list N.

(** A source-code literal, character by character. *)
Definition lit (s : string) : str := map N_of_ascii (list_ascii_of_string s).
Arguments lit s%_string_scope.

Fixpoint str_eqb (a b : str) : bool :=
  match a, b with
  | [], [] => true
  | x :: a', y :: b' => N.eqb x y && str_eqb a' b'
  | _, _ => false
  end.

(** [x in [l1, l2, ...]] on strings. *)
Definition str_in (x : str) (l : list str) : bool := existsb (str_eqb x) l.

(** Truth value of a [str]: the empty string is false. *)
Definition truthy (s : str) : bool :=
  match s with [] => false | _ :: _ => true end.

(** Truth value of a value that is a [str] or [None]. *)
Definition truthy_opt (o : option str) : bool :=
  match o with None => false | Some s => truthy s end.

(** [s.split(sep)] for a one-character separator: never the empty list. *)
Fixpoint split_on (sep : codepoint) (s : str) : list str :=
  match s with
  | [] => [[]]
  | c :: s' =>
      if N.eqb c sep then [] :: split_on sep s'
      else match split_on sep s' with
           | [] => [[c]]
           | w :: ws => (c :: w) :: ws
           end
  end.

(** [l[-1]] on the result of a split. *)
Definition last_item (l : list str) : str := last l [].

(** [sep.join(l)]. *)
Fixpoint join (sep : str) (l : list str) : str :=
  match l with
  | [] => []
  | [x] => x
  | x :: rest => x ++ sep ++ join sep rest
  end.

Definition ch_dot : codepoint := 46%N.
Definition ch_slash : codepoint := 47%N.
Definition ch_plus : codepoint := 43%N.
Definition ch_space : codepoint := 32%N.
Definition ch_percent : codepoint := 37%N.
Definition ch_newline : codepoint := 10%N.

(** [s.replace('+', ' ')]. *)
Definition replace_plus (s : str) : str :=
  map (fun c => if N.eqb c ch_plus then ch_space else c) s.

(** ** UTF-8 decoding, as CPython's decoder does it

    One step reads one code point or reports one error together with the
    number of octets the error covers (the maximal valid prefix of the
    ill-formed sequence, at least one octet). *)

Inductive utf8_error : Type :=
| InvalidStart
| InvalidContinuation
| UnexpectedEnd.

Inductive utf8_item : Type :=
| Decoded (c : codepoint) (len : nat)
| Malformed (e : utf8_error) (len : nat).

Definition is_continuation (b : N) : bool := (128 <=? b)%N && (b <=? 191)%N.

Definition low6 (b : N) : N := N.land b 63.

Definition utf8_step (b0 : N) (t : bytes) : utf8_item :=
  if (b0 <? 128)%N then Decoded b0 1
  else if (b0 <? 194)%N then Malformed InvalidStart 1
  else if (b0 <? 224)%N then
    match t with
    | [] => Malformed UnexpectedEnd 1
    | b1 :: _ =>
        if is_continuation b1
        then Decoded (N.shiftl (N.land b0 31) 6 + low6 b1)%N 2
        else Malformed InvalidContinuation 1
    end
  else if (b0 <? 240)%N then
    match t with
    | [] => Malformed UnexpectedEnd 1
    | b1 :: t1 =>
        if negb (is_continuation b1)
           || (if (b1 <? 160)%N then N.eqb b0 224 else N.eqb b0 237)
        then Malformed InvalidContinuation 1
        else match t1 with
             | [] => Malformed UnexpectedEnd 2
             | b2 :: _ =>
                 if is_continuation b2
                 then Decoded (N.shiftl (N.land b0 15) 12
                               + N.shiftl (low6 b1) 6 + low6 b2)%N 3
                 else Malformed InvalidContinuation 2
             end
    end
  else if (b0 <? 245)%N then
    match t with
    | [] => Malformed UnexpectedEnd 1
    | b1 :: t1 =>
        if negb (is_continuation b1)
           || (if (b1 <? 144)%N then N.eqb b0 240 else N.eqb b0 244)
        then Malformed InvalidContinuation 1
        else match t1 with
             | [] => Malformed UnexpectedEnd 2
             | b2 :: t2 =>
                 if negb (is_continuation b2)
                 then Malformed InvalidContinuation 2
                 else match t2 with
                      | [] => Malformed UnexpectedEnd 3
                      | b3 :: _ =>
                          if is_continuation b3
                          then Decoded (N.shiftl (N.land b0 7) 18
                                        + N.shiftl (low6 b1) 12
                                        + N.shiftl (low6 b2) 6 + low6 b3)%N 4
                          else Malformed InvalidContinuation 3
                      end
             end
    end
  else Malformed InvalidStart 1.

Definition replacement_character : codepoint := 65533%N.

(** [bs.decode('utf-8', 'replace')]: one U+FFFD per error.  The fuel is the
    number of octets left, which every step lowers. *)
Fixpoint decode_replace_fuel (fuel : nat) (bs : bytes) : str :=
  match fuel, bs with
  | O, _ => []
  | _, [] => []
  | S fuel', b0 :: t =>
      match utf8_step b0 t with
      | Decoded c len => c :: decode_replace_fuel fuel' (skipn (len - 1) t)
      | Malformed _ len =>
          replacement_character :: decode_replace_fuel fuel' (skipn (len - 1) t)
      end
  end.

Definition decode_replace (bs : bytes) : str :=
  decode_replace_fuel (length bs) bs.

(** Decimal and two-digit hexadecimal renderings used in error messages. *)
Definition decimal (n : nat) : str := lit (NilZero.string_of_uint (Nat.to_uint n)).

Definition hex_digit (d : N) : codepoint :=
  if (d <? 10)%N then (48 + d)%N else (87 + d)%N.

Definition hex2 (b : N) : str := [hex_digit (N.shiftr b 4); hex_digit (N.land b 15)].

Definition utf8_error_text (e : utf8_error) : str :=
  match e with
  | InvalidStart => lit "invalid start byte"
  | InvalidContinuation => lit "invalid continuation byte"
  | UnexpectedEnd => lit "unexpected end of data"
  end.

(** [str(e)] of the [UnicodeDecodeError] raised at offset [pos]. *)
Definition decode_error_message (b0 : N) (pos len : nat) (e : utf8_error) : str :=
  (if Nat.eqb len 1
   then lit "'utf-8' codec can't decode byte 0x" ++ hex2 b0
        ++ lit " in position " ++ decimal pos
   else lit "'utf-8' codec can't decode bytes in position " ++ decimal pos
        ++ lit "-" ++ decimal (pos + len - 1))
  ++ lit ": " ++ utf8_error_text e.

(** [bs.decode('utf-8')]: the text, or the message of the error raised. *)
Fixpoint decode_strict_fuel (fuel : nat) (pos : nat) (bs : bytes) : str + str :=
  match fuel, bs with
  | O, _ => inl []
  | _, [] => inl []
  | S fuel', b0 :: t =>
      match utf8_step b0 t with
      | Decoded c len =>
          match decode_strict_fuel fuel' (pos + len) (skipn (len - 1) t) with
          | inl s => inl (c :: s)
          | inr msg => inr msg
          end
      | Malformed e len => inr (decode_error_message b0 pos len e)
      end
  end.

Definition decode_strict (bs : bytes) : str + str :=
  decode_strict_fuel (length bs) 0 bs.

(** ** [urllib.parse.unquote_plus] *)

Definition is_hexdig (c : N) : bool :=
  ((48 <=? c) && (c <=? 57) || (65 <=? c) && (c <=? 70)
   || (97 <=? c) && (c <=? 102))%N.

Definition hex_value (c : N) : N :=
  if (c <=? 57)%N then (c - 48)%N
  else if (c <=? 70)%N then (c - 55)%N
  else (c - 87)%N.

(** One item of [string.split(b'%')] after the first: two hexadecimal digits
    give an octet, anything else keeps its percent sign. *)
Definition unquote_item (item : bytes) : bytes :=
  match item with
  | h :: l :: rest =>
      if is_hexdig h && is_hexdig l
      then (hex_value h * 16 + hex_value l)%N :: rest
      else ch_percent :: item
  | _ => ch_percent :: item
  end.

(** [unquote_to_bytes] on an ASCII string (its UTF-8 encoding is itself). *)
Definition unquote_to_bytes (s : str) : bytes :=
  match split_on ch_percent s with
  | [] => []
  | first :: items => first ++ concat (map unquote_item items)
  end.

(** The pieces [_asciire.split] produces, processed in order: a maximal run
    of ASCII characters is unquoted and decoded, other characters are kept.
    [run] is the ASCII run read so far. *)
Definition flush_run (run : str) : str :=
  match run with
  | [] => []
  | _ => decode_replace (unquote_to_bytes run)
  end.

Fixpoint unquote_runs (run : str) (s : str) : str :=
  match s with
  | [] => flush_run run
  | c :: s' =>
      if (c <? 128)%N then unquote_runs (run ++ [c]) s'
      else flush_run run ++ c :: unquote_runs [] s'
  end.

Definition unquote (s : str) : str :=
  if existsb (N.eqb ch_percent) s then unquote_runs [] s else s.

Definition unquote_plus (s : str) : str := unquote (replace_plus s).

(** ** [str.lower]

    ASCII letters are lowered as written out here.  For every other character
    CPython consults the Unicode case-mapping tables (and, for capital sigma,
    the characters around it): [lower_nonascii s i] stands for what those
    tables give for the character at index [i] of [s]. *)

Section Lower.
Variable lower_nonascii : str -> nat -> str.

Definition ascii_lower (c : codepoint) : codepoint :=
  if (65 <=? c)%N && (c <=? 90)%N then (c + 32)%N else c.

Fixpoint lower_from (whole : str) (i : nat) (s : str) : str :=
  match s with
  | [] => []
  | c :: s' =>
      (if (c <? 128)%N then [ascii_lower c] else lower_nonascii whole i)
      ++ lower_from whole (S i) s'
  end.

Definition lower (s : str) : str := lower_from s 0 s.
End Lower.

(** A stand-in table that leaves characters as they are; keys made of ASCII
  characters never reach it. *)
Definition keep_nonascii (s : str) (i : nat) : str := [nth i s 0%N].

(** ** Exceptions and effects *)

Inductive exn_class : Type :=
| ClientError
| Boto3Error
| OtherException.

(** An exception: its class and [str(e)]. *)
Record exn : Type := { exn_kind : exn_class; exn_str : str }.

(** What a collaborator answers: a value, or an exception raised. *)
Inductive reply (A : Type) : Type :=
| Ok (a : A)
| Err (e : exn).

Arguments Ok {A} a.
Arguments Err {A} e.

Section Effects.
Variable E : Type.

(** How a computation ends, with the history of calls made so far. *)
Inductive outcome (A : Type) : Type :=
| Returned (a : A) (h : list E)
| Raised (e : exn) (h : list E)
| OutOfFuel (h : list E).

Arguments Returned {A} a h.
Arguments Raised {A} e h.
Arguments OutOfFuel {A} h.

Definition M (A : Type) : Type := list E -> outcome A.

Definition ret {A : Type} (a : A) : M A := fun h => Returned a h.

Definition bind {A B : Type} (m : M A) (k : A -> M B) : M B :=
  fun h =>
    match m h with
    | Returned a h' => k a h'
    | Raised e h' => Raised e h'
    | OutOfFuel h' => OutOfFuel h'
    end.

Definition raise {A : Type} (e : exn) : M A := fun h => Raised e h.

(** [try: m  except Exception as e: handler e]. *)
Definition try_except {A : Type} (m : M A) (handler : exn -> M A) : M A :=
  fun h =>
    match m h with
    | Raised e h' => handler e h'
    | o => o
    end.

Definition out_of_fuel {A : Type} : M A := fun h => OutOfFuel h.

(** A call to a collaborator: recorded, then answered from the history
    before it. *)
Definition call {A : Type} (ev : E) (answer : list E -> reply A) : M A :=
  fun h =>
    match answer h with
    | Ok a => Returned a (h ++ [ev])
    | Err e => Raised e (h ++ [ev])
    end.

(** An effect with no answer, such as [time.sleep]. *)
Definition emit (ev : E) : M unit := fun h => Returned tt (h ++ [ev]).

(** The history at which a computation stopped. *)
Definition history_of {A : Type} (o : outcome A) : list E :=
  match o with
  | Returned _ h => h
  | Raised _ h => h
  | OutOfFuel h => h
  end.

(** [m] only ever appends events that satisfy [P] to the history, however it
    ends. *)
Definition emits_only (P : E -> Prop) {A : Type} (m : M A) : Prop :=
  forall h, exists t, history_of (m h) = h ++ t /\ Forall P t.
End Effects.

Arguments Returned {E A} a h.
Arguments Raised {E A} e h.
Arguments OutOfFuel {E A} h.
Arguments ret {E A} a _.
Arguments raise {E A} e _.
Arguments out_of_fuel {E A} h.

Declare Scope py_scope.
Delimit Scope py_scope with py.
Notation "x <- m ;; k" := (bind m (fun x => k))
(at level 100, m at next level, right associativity) : py_scope.
Notation "m ;;; k" := (bind m (fun _ => k))
(at level 100, right associativity) : py_scope.

(** ** Vocabulary for the properties of decoding *)

Definition is_ascii (c : codepoint) : bool := (c <? 128)%N.

(** The text after a percent sign starts with two hexadecimal digits. *)
Definition is_escape (item : str) : bool :=
  match item with
  | h :: l :: _ => is_hexdig h && is_hexdig l
  | _ => false
  end.

(** The pieces of a string that follow its percent signs. *)
Definition escape_items (s : str) : list str := tl (split_on ch_percent s).

Definition is_upper (c : codepoint) : bool := (65 <=? c)%N && (c <=? 90)%N.

Open Scope py_scope.

(** [json.dumps(s)] of a string, kept as a term: no property below looks
  inside the serialised text. *)
Inductive json_text : Type :=
| json_dumps (s : str).

Record lambda_result : Type := { statusCode : Z; body : json_text }.

(** * [lambdas/document_ingestion/index.py] *)

Module DocumentIngestion.

(** A block of a layout-analysis result page. *)
Record block : Type := { BlockType : str; Text : str }.

(** The answer of [get_document_analysis]. *)
Record analysis : Type := {
JobStatus : str;
StatusMessage : option str;
Blocks : list block;
NextToken : option str
}.

(** The document handed to the index. *)
Record document : Type := {
content : str;
title : str;
document_id : str;
file_type : str;
upload_date : str;
last_modified : str
}.

(** One entry of [event['Records']]: [record['s3']['bucket']['name']] and
  [record['s3']['object']['key']]. *)
Record s3_record : Type := { bucket_name : str; object_key : str }.

(** The calls the lambda makes, with their arguments. *)
Inductive event : Type :=
| GetObject (Bucket Key : str)
| HeadObject (Bucket Key : str)
| TemporaryDirectory
| Pandoc (input : bytes)
| StartDocumentAnalysis (Bucket Name : str)
| GetDocumentAnalysis (JobId : str) (Token : option str)
| Sleep (seconds : N)
| UtcNow
| GetOpenSearchClient
| Index (index id : str) (doc : document) (refresh : bool).

Definition history : Type := list event.

(** Computations of this lambda. *)
Definition IO (A : Type) : Type := M event A.

(** The collaborators.  [get_object] stands for the request and the read of
  its body; [head_object] for the request and
  [metadata['LastModified'].isoformat()]; [pandoc] for writing the input
  file and running the converter on it, answering the return code, the
  standard output and the standard error. *)
Record services : Type := {
get_object : history -> str -> str -> reply bytes;
head_object : history -> str -> str -> reply str;
temporary_directory : history -> reply unit;
pandoc : history -> bytes -> reply (Z * str * str);
start_document_analysis : history -> str -> str -> reply str;
get_document_analysis : history -> str -> option str -> reply analysis;
utcnow_isoformat : history -> str;
get_opensearch_client : history -> reply unit;
opensearch_index : history -> str -> str -> document -> reply unit
}.

Definition plain_extensions : list str := [lit "txt"; lit "json"; lit "md"].
Definition office_extensions : list str := [lit "docx"; lit "doc"].
Definition ocr_extensions : list str :=
[lit "pdf"; lit "png"; lit "jpg"; lit "jpeg"].
Definition terminal_statuses : list str := [lit "SUCCEEDED"; lit "FAILED"].

Section Program.
Variable lower_nonascii : str -> nat -> str.
Variable sv : services.

(** [decoded_key.split('.')[-1].lower()]. *)
Definition file_ext (decoded_key : str) : str :=
  lower lower_nonascii (last_item (split_on ch_dot decoded_key)).

(** [decoded_key.split('/')[-1]]. *)
Definition title_of (decoded_key : str) : str :=
  last_item (split_on ch_slash decoded_key).

Definition extract_text_from_docx
    (bucket original_key : str) (decoded_key : option str) : IO (option str) :=
  let decoded_key :=
    match decoded_key with
    | None => unquote_plus original_key
    | Some d => d
    end in
  try_except
    (call TemporaryDirectory (temporary_directory sv) ;;;
     response <- call (GetObject bucket original_key)
                      (fun h => get_object sv h bucket original_key) ;;
     result <- call (Pandoc response) (fun h => pandoc sv h response) ;;
     let '(returncode, stdout, _) := result in
     if Z.eqb returncode 0 then ret (Some stdout) else ret None)
    (fun _ => ret None).

(** The status loop: [while True: ... if status in [...]: break;
    time.sleep(3)]. *)
Fixpoint poll (fuel : nat) (job_id : str) : IO analysis :=
  match fuel with
  | O => out_of_fuel
  | S fuel' =>
      response <- call (GetDocumentAnalysis job_id None)
                       (fun h => get_document_analysis sv h job_id None) ;;
      if str_in (JobStatus response) terminal_statuses
      then ret response
      else emit (Sleep 3) ;;; poll fuel' job_id
  end.

(** The texts of the [LINE] blocks of one page, in order. *)
Definition line_texts (bs : list block) : list str :=
  map Text (filter (fun b => str_eqb (BlockType b) (lit "LINE")) bs).

(** The page loop: [while True: ... if 'NextToken' in response: ... else:
    break]. *)
Fixpoint get_pages (fuel : nat) (job_id : str) (next_token : option str)
    (text_content : list str) : IO (list str) :=
  match fuel with
  | O => out_of_fuel
  | S fuel' =>
      response <-
        (if truthy_opt next_token
         then call (GetDocumentAnalysis job_id next_token)
                   (fun h => get_document_analysis sv h job_id next_token)
         else call (GetDocumentAnalysis job_id None)
                   (fun h => get_document_analysis sv h job_id None)) ;;
      let text_content := text_content ++ line_texts (Blocks response) in
      match NextToken response with
      | Some t => get_pages fuel' job_id (Some t) text_content
      | None => ret text_content
      end
  end.

(** The body of the Textract branch. *)
Definition textract_branch (fuel : nat) (bucket original_key : str) : IO str :=
  job_id <- call (StartDocumentAnalysis bucket original_key)
                 (fun h => start_document_analysis sv h bucket original_key) ;;
  response <- poll fuel job_id ;;
  if str_eqb (JobStatus response) (lit "SUCCEEDED")
  then
    text_content <- get_pages fuel job_id None [] ;;
    ret (join [ch_newline] text_content)
  else
    let error_message :=
      match StatusMessage response with
      | Some m => m
      | None => lit "Unknown error"
      end in
    ret (lit "Error processing document: " ++ error_message).

(** The second [if] of the function; [content] is the local variable the
    office branch leaves at [None]. *)
Definition textract_or_unsupported (fuel : nat) (bucket original_key : str)
    (ext : str) (content : option str) : IO str :=
  if str_in ext ocr_extensions
     || (str_in ext office_extensions
         && match content with None => true | Some _ => false end)
  then textract_branch fuel bucket original_key
  else ret (lit "Unsupported file type: " ++ ext).

Definition extract_text_from_file (fuel : nat) (bucket key : str) : IO str :=
  let original_key := key in
  let decoded_key := unquote_plus key in
  try_except
    (let ext := file_ext decoded_key in
     if str_in ext plain_extensions then
       response <- call (GetObject bucket original_key)
                        (fun h => get_object sv h bucket original_key) ;;
       match decode_strict response with
       | inl text => ret text
       | inr msg => raise {| exn_kind := OtherException; exn_str := msg |}
       end
     else if str_in ext office_extensions then
       content <- extract_text_from_docx bucket original_key (Some decoded_key) ;;
       if truthy_opt content
       then ret (match content with Some c => c | None => [] end)
       else textract_or_unsupported fuel bucket original_key ext None
     else textract_or_unsupported fuel bucket original_key ext None)
    (fun e => ret (exn_str e)).

(** The body of the [for] loop of the handler, for one record. *)
Definition process_record (fuel : nat) (record : s3_record) : IO unit :=
  let bucket := bucket_name record in
  let key := object_key record in
  let decoded_key := unquote_plus key in
  content <- extract_text_from_file fuel bucket key ;;
  if negb (truthy content) then ret tt
  else
    default <- call UtcNow (fun h => Ok (utcnow_isoformat sv h)) ;;
    last_modified <-
      try_except
        (call (HeadObject bucket key) (fun h => head_object sv h bucket key))
        (fun _ => ret default) ;;
    now <- call UtcNow (fun h => Ok (utcnow_isoformat sv h)) ;;
    let doc := {| content := content;
                  title := title_of decoded_key;
                  document_id := key;
                  file_type := file_ext decoded_key;
                  upload_date := now;
                  last_modified := last_modified |} in
    try_except
      (call GetOpenSearchClient (get_opensearch_client sv) ;;;
       call (Index (lit "enterprise-docs") key doc true)
            (fun h => opensearch_index sv h (lit "enterprise-docs") key doc))
      (fun e => raise e).

Fixpoint for_records (fuel : nat) (records : list s3_record) : IO unit :=
  match records with
  | [] => ret tt
  | record :: rest => process_record fuel record ;;; for_records fuel rest
  end.

Definition lambda_handler (fuel : nat) (records : list s3_record)
  : IO lambda_result :=
  try_except
    (for_records fuel records ;;;
     ret {| statusCode := 200;
            body := json_dumps (lit "Document processing complete") |})
    (fun e =>
       ret {| statusCode := 500;
              body := json_dumps (lit "Error processing document: "
                                  ++ exn_str e) |}).
End Program.

(** ** Vocabulary of the properties *)

(** The categories of the format classifier. *)
Inductive category : Type :=
| PlainText
| OfficeDocument
| ScannedOrImage
| Unsupported.

(** The membership tests of [extract_text_from_file], in their order. *)
Definition classify (ext : str) : category :=
  if str_in ext plain_extensions then PlainText
  else if str_in ext office_extensions then OfficeDocument
  else if str_in ext ocr_extensions then ScannedOrImage
  else Unsupported.

(** A call to the storage layer or a job submission names this bucket and
    this key. *)
Definition storage_call_uses (bucket key : str) (ev : event) : Prop :=
  match ev with
  | GetObject b k => b = bucket /\ k = key
  | HeadObject b k => b = bucket /\ k = key
  | StartDocumentAnalysis b k => b = bucket /\ k = key
  | _ => True
  end.

(** [n] unsuccessful polls: a status request and a three-second sleep each. *)
Fixpoint poll_events (job_id : str) (n : nat) : history :=
  match n with
  | O => []
  | S n' => GetDocumentAnalysis job_id None :: Sleep 3 :: poll_events job_id n'
  end.

(** The requests that fetch [pages] one after the other, the first one with
    [token]. *)
Fixpoint page_requests (job_id : str) (token : option str)
    (pages : list analysis) : history :=
  match pages with
  | [] => []
  | p :: rest =>
      GetDocumentAnalysis job_id token :: page_requests job_id (NextToken p) rest
  end.

(** Every [LINE] text of every page, in page order. *)
Definition all_line_texts (pages : list analysis) : list str :=
  flat_map (fun p => line_texts (Blocks p)) pages.

(** The documents handed to the index in a history, oldest first. *)
Definition indexed_documents (h : history) : list document :=
  flat_map (fun ev => match ev with Index _ _ doc _ => [doc] | _ => [] end) h.

Definition mentions_key (key : str) (ev : event) : bool :=
  match ev with
  | GetObject _ k | HeadObject _ k | StartDocumentAnalysis _ k => str_eqb k key
  | Index _ id _ _ => str_eqb id key
  | _ => false
  end.

Section Vocabulary.
Variable lower_nonascii : str -> nat -> str.
Variable sv : services.

(** The strategies tried for a category. *)
Definition by_category (fuel : nat) (bucket key decoded_key : str)
    (c : category) : IO str :=
  match c with
  | PlainText =>
      response <- call (GetObject bucket key)
                       (fun h => get_object sv h bucket key) ;;
      match decode_strict response with
      | inl text => ret text
      | inr msg => raise {| exn_kind := OtherException; exn_str := msg |}
      end
  | OfficeDocument =>
      content <- extract_text_from_docx sv bucket key (Some decoded_key) ;;
      if truthy_opt content
      then ret (match content with Some c => c | None => [] end)
      else textract_branch sv fuel bucket key
  | ScannedOrImage => textract_branch sv fuel bucket key
  | Unsupported =>
      ret (lit "Unsupported file type: " ++ file_ext lower_nonascii decoded_key)
  end.

(** From history [h0] on, the service answers the page requests of the job
    with [pages], linked by non-empty tokens, the last page having none. *)
Fixpoint serves_pages (h0 : history) (job_id : str) (token : option str)
    (pages : list analysis) : Prop :=
  match pages with
  | [] => False
  | p :: rest =>
      (forall t, get_document_analysis sv (h0 ++ t) job_id token = Ok p)
      /\ match rest with
         | [] => NextToken p = None
         | _ :: _ =>
             exists tk, NextToken p = Some tk /\ tk <> []
                        /\ serves_pages h0 job_id (Some tk) rest
         end
  end.

(** The poll number [k] (from 0) made after history [h] is answered with a
    status that is not terminal. *)
Definition reports_running (h : history) (job_id : str) (k : nat) : Prop :=
  exists r,
    get_document_analysis sv (h ++ poll_events job_id k) job_id None = Ok r
    /\ str_in (JobStatus r) terminal_statuses = false.

(** What the events of one record must look like: storage calls name the
    raw key, and a committed document has the raw key as identifier and its
    human-facing fields taken from the decoded key. *)
Definition record_event_ok (bucket key : str) (ev : event) : Prop :=
  storage_call_uses bucket key ev
  /\ match ev with
     | Index _ id doc _ =>
         id = key /\ document_id doc = key
         /\ title doc = title_of (unquote_plus key)
         /\ file_type doc = file_ext lower_nonascii (unquote_plus key)
     | _ => True
     end.
End Vocabulary.

(** ** Scripted environments for the examples *)

Definition NoSuchKey : exn :=
  {| exn_kind := ClientError;
     exn_str := lit "An error occurred (NoSuchKey) when calling the GetObject operation: The specified key does not exist." |}.

Definition AccessDenied : exn :=
  {| exn_kind := ClientError;
     exn_str := lit "An error occurred (403) when calling the HeadObject operation: Forbidden" |}.

Definition IndexRejected : exn :=
  {| exn_kind := OtherException;
     exn_str := lit "TransportError(429, 'cluster_block_exception')" |}.

Fixpoint find_object (objects : list (str * bytes)) (key : str) : reply bytes :=
  match objects with
  | [] => Err NoSuchKey
  | (k, body) :: rest => if str_eqb k key then Ok body else find_object rest key
  end.

(** An environment given by its stored objects, the answer to a metadata
    request per key, the converter's answer, the layout-analysis answers and
    the index's answer per document id.  The clock shows the number of calls
    made so far in its last digits. *)
Definition scripted (objects : list (str * bytes)) (head : str -> reply str)
    (converter : reply (Z * str * str))
    (job : history -> option str -> reply analysis)
    (commit : str -> reply unit) : services :=
  {| get_object := fun _ _ key => find_object objects key;
     head_object := fun _ _ key => head key;
     temporary_directory := fun _ => Ok tt;
     pandoc := fun _ _ => converter;
     start_document_analysis := fun _ _ _ => Ok (lit "job-1");
     get_document_analysis := fun h _ token => job h token;
     utcnow_isoformat := fun h => lit "2024-05-01T09:00:00." ++ decimal (length h);
     get_opensearch_client := fun _ => Ok tt;
     opensearch_index := fun _ _ id _ => commit id |}.

Definition sample_objects : list (str * bytes) :=
  [ (lit "reports/q1.txt", lit "Revenue grew 10%.");
    (lit "folder/my%20file.txt", lit "hello");
    (lit "txt", lit "plain words");
    (lit "a.txt", lit "alpha");
    (lit "b.txt", lit "beta");
    (lit "c.txt", lit "gamma");
    (lit "q1+final.txt", lit "totals");
    (lit "memo.docx", [80; 75; 3; 4]%N);
    (lit "scan.pdf", [37; 80; 68; 70]%N) ].

Definition failed_job (h : history) (token : option str) : reply analysis :=
  Ok {| JobStatus := lit "FAILED";
        StatusMessage := Some (lit "INVALID_IMAGE_TYPE");
        Blocks := [];
        NextToken := None |}.

Definition in_progress : analysis :=
  {| JobStatus := lit "IN_PROGRESS"; StatusMessage := None; Blocks := [];
     NextToken := None |}.

Definition one_page : analysis :=
  {| JobStatus := lit "SUCCEEDED"; StatusMessage := None;
     Blocks := [ {| BlockType := lit "PAGE"; Text := [] |};
                 {| BlockType := lit "LINE"; Text := lit "Invoice 42" |} ];
     NextToken := None |}.

Definition page (status : string) (lines : list string) (next : option string)
  : analysis :=
  {| JobStatus := lit status; StatusMessage := None;
     Blocks := {| BlockType := lit "PAGE"; Text := [] |}
               :: map (fun l => {| BlockType := lit "LINE"; Text := lit l |}) lines;
     NextToken := option_map lit next |}.
Arguments page status%_string_scope lines next.

Definition page_1 : analysis :=
  page "SUCCEEDED" ["Annual report"%string; "2023"%string] (Some "p2"%string).
Definition page_2 : analysis :=
  page "SUCCEEDED" ["Revenue"%string] (Some "p3"%string).
Definition page_3 : analysis :=
  page "SUCCEEDED" ["Outlook"%string; "End"%string] None.

(** A succeeded job of three pages, served by token. *)
Definition paged_job (h : history) (token : option str) : reply analysis :=
  match token with
  | None => Ok page_1
  | Some t =>
      if str_eqb t (lit "p2") then Ok page_2
      else if str_eqb t (lit "p3") then Ok page_3
      else Err {| exn_kind := ClientError;
                  exn_str := lit "An error occurred (InvalidParameterException) when calling the GetDocumentAnalysis operation" |}
  end.

(** A job that is in progress until the history has [threshold] events. *)
Definition slow_job (threshold : nat) (h : history) (token : option str)
  : reply analysis :=
  if Nat.ltb (length h) threshold then Ok in_progress else Ok one_page.

(** A job that never leaves the in-progress status. *)
Definition stuck_job (h : history) (token : option str) : reply analysis :=
  Ok in_progress.

Definition head_ok (key : str) : reply str := Ok (lit "2024-04-30T18:30:00+00:00").
Definition head_denied (key : str) : reply str := Err AccessDenied.
Definition converter_fails : reply (Z * str * str) :=
  Ok (1%Z, [], lit "pandoc: couldn't parse docx file").
Definition commit_ok (id : str) : reply unit := Ok tt.

(** Every collaborator works, the converter and the layout job fail. *)
Definition sample : services :=
  scripted sample_objects head_ok converter_fails failed_job commit_ok.

(** The layout job succeeds once the history has [threshold] events. *)
Definition slow (threshold : nat) : services :=
  scripted sample_objects head_ok converter_fails (slow_job threshold) commit_ok.

(** The index rejects the document whose id is "b.txt". *)
Definition rejects_b (id : str) : reply unit :=
  if str_eqb id (lit "b.txt") then Err IndexRejected else Ok tt.

Definition flaky_index : services :=
  scripted sample_objects head_ok converter_fails failed_job rejects_b.

(** The metadata request is refused. *)
Definition no_metadata : services :=
  scripted sample_objects head_denied converter_fails failed_job commit_ok.

Definition paged : services :=
  scripted sample_objects head_ok converter_fails paged_job commit_ok.

Definition stuck : services :=
  scripted sample_objects head_ok converter_fails stuck_job commit_ok.

Definition on (bucket key : string) : s3_record :=
  {| bucket_name := lit bucket; object_key := lit key |}.

(** ** Further vocabulary *)

(** The calls an extraction may make: storage retrieval, the converter and
    the layout analysis; neither the clock, nor the metadata request, nor the
    index. *)
Definition strategy_event (ev : event) : Prop :=
  match ev with
  | GetObject _ _ | TemporaryDirectory | Pandoc _
  | StartDocumentAnalysis _ _ | GetDocumentAnalysis _ _ | Sleep _ => True
  | HeadObject _ _ | UtcNow | GetOpenSearchClient | Index _ _ _ _ => False
  end.

(** What a commit made for a batch looks like. *)
Definition index_request_ok (records : list s3_record) (ev : event) : Prop :=
  match ev with
  | Index index id doc refresh =>
      index = lit "enterprise-docs" /\ refresh = true
      /\ document_id doc = id /\ content doc <> []
      /\ In id (map object_key records)
  | _ => True
  end.

Definition not_index (ev : event) : Prop :=
  match ev with Index _ _ _ _ => False | _ => True end.

(** The token sent after [pages] have been fetched, the first request
    having carried [token]. *)
Fixpoint token_after (token : option str) (pages : list analysis) : option str :=
  match pages with
  | [] => token
  | p :: rest => token_after (NextToken p) rest
  end.

(** From history [h0] on, the service answers the page requests of the job
    with [pages], each carrying a non-empty token for the next one, and
    raises [e] at the request that follows them. *)
Fixpoint serves_then_raises (sv : services) (h0 : history) (job_id : str)
    (token : option str) (pages : list analysis) (e : exn) : Prop :=
  match pages with
  | [] => forall t, get_document_analysis sv (h0 ++ t) job_id token = Err e
  | p :: rest =>
      (forall t, get_document_analysis sv (h0 ++ t) job_id token = Ok p)
      /\ exists tk, NextToken p = Some tk /\ tk <> []
                    /\ serves_then_raises sv h0 job_id (Some tk) rest e
  end.

(** ** Further scripted environments *)

Definition more_objects : list (str * bytes) :=
  (lit "broken.txt", [104; 105; 255]%N) :: (lit "empty.txt", []) :: sample_objects.

Definition more : services :=
  scripted more_objects head_ok converter_fails failed_job commit_ok.

(** Every page carries an empty page token. *)
Definition empty_token_page : analysis :=
  {| JobStatus := lit "SUCCEEDED"; StatusMessage := None;
     Blocks := [ {| BlockType := lit "LINE"; Text := lit "Invoice 42" |} ];
     NextToken := Some [] |}.

Definition empty_token_job (h : history) (token : option str) : reply analysis :=
  Ok empty_token_page.

Definition empty_tokens : services :=
  scripted sample_objects head_ok converter_fails empty_token_job commit_ok.

Definition Throttled : exn :=
  {| exn_kind := ClientError;
     exn_str := lit "An error occurred (ThrottlingException) when calling the GetDocumentAnalysis operation: Rate exceeded" |}.

(** The first two pages are served, the request for the third is refused. *)
Definition interrupted_job (h : history) (token : option str) : reply analysis :=
  match token with
  | None => Ok page_1
  | Some t => if str_eqb t (lit "p2") then Ok page_2 else Err Throttled
  end.

Definition interrupted : services :=
  scripted sample_objects head_ok converter_fails interrupted_job commit_ok.

(** [KeyError('OPENSEARCH_DOMAIN')]. *)
Definition DomainMissing : exn :=
  {| exn_kind := OtherException; exn_str := lit "'OPENSEARCH_DOMAIN'" |}.

(** The index client cannot be built. *)
Definition unconfigured : services :=
  {| get_object := get_object sample;
     head_object := head_object sample;
     temporary_directory := temporary_directory sample;
     pandoc := pandoc sample;
     start_document_analysis := start_document_analysis sample;
     get_document_analysis := get_document_analysis sample;
     utcnow_isoformat := utcnow_isoformat sample;
     get_opensearch_client := fun _ => Err DomainMissing;
     opensearch_index := opensearch_index sample |}.

(** ** The functions from their first line: building the clients

    [extract_text_from_file] builds its two clients before its [try] block,
    and the handler builds one for every record that has content, outside
    the [try] blocks of the metadata request and of the commit.  The
    definitions below put these constructions where the source has them:
    building a client sends no request and leaves no event, but it can
    raise. *)

Section WithClients.
Variable lower_nonascii : str -> nat -> str.
Variable sv : services.
(** [boto3.client(name)]. *)
Variable boto3_client : history -> str -> reply unit.

Definition build_client (name : str) : IO unit :=
  fun h =>
    match boto3_client h name with
    | Ok _ => Returned tt h
    | Err e => Raised e h
    end.

Definition extract_text_from_file_with_clients
    (fuel : nat) (bucket key : str) : IO str :=
  build_client (lit "textract") ;;;
  build_client (lit "s3") ;;;
  extract_text_from_file lower_nonascii sv fuel bucket key.

(** What the handler does with a record that has content, once its client
    is built: the metadata request, the assembly and the commit. *)
Definition commit_record (bucket key content : str) : IO unit :=
  let decoded_key := unquote_plus key in
  default <- call UtcNow (fun h => Ok (utcnow_isoformat sv h)) ;;
  last_modified <-
    try_except
      (call (HeadObject bucket key) (fun h => head_object sv h bucket key))
      (fun _ => ret default) ;;
  now <- call UtcNow (fun h => Ok (utcnow_isoformat sv h)) ;;
  let doc := {| content := content;
                title := title_of decoded_key;
                document_id := key;
                file_type := file_ext lower_nonascii decoded_key;
                upload_date := now;
                last_modified := last_modified |} in
  try_except
    (call GetOpenSearchClient (get_opensearch_client sv) ;;;
     call (Index (lit "enterprise-docs") key doc true)
          (fun h => opensearch_index sv h (lit "enterprise-docs") key doc))
    (fun e => raise e).

Definition process_record_with_clients (fuel : nat) (record : s3_record)
  : IO unit :=
  let bucket := bucket_name record in
  let key := object_key record in
  content <- extract_text_from_file_with_clients fuel bucket key ;;
  if negb (truthy content) then ret tt
  else build_client (lit "s3") ;;; commit_record bucket key content.

Fixpoint for_records_with_clients (fuel : nat) (records : list s3_record)
  : IO unit :=
  match records with
  | [] => ret tt
  | record :: rest =>
      process_record_with_clients fuel record ;;;
      for_records_with_clients fuel rest
  end.

Definition lambda_handler_with_clients (fuel : nat) (records : list s3_record)
  : IO lambda_result :=
  try_except
    (for_records_with_clients fuel records ;;;
     ret {| statusCode := 200;
            body := json_dumps (lit "Document processing complete") |})
    (fun e =>
       ret {| statusCode := 500;
              body := json_dumps (lit "Error processing document: "
                                  ++ exn_str e) |}).
End WithClients.

(** [botocore.exceptions.NoRegionError]. *)
Definition NoRegionError : exn :=
  {| exn_kind := OtherException; exn_str := lit "You must specify a region." |}.

(** No client can be built. *)
Definition no_region (h : history) (name : str) : reply unit := Err NoRegionError.

(** Every client can be built. *)
Definition clients_ok (h : history) (name : str) : reply unit := Ok tt.

End DocumentIngestion.

(** * [lambdas/ai_search/index.py] *)

Module AiSearch.

(** A value built by [json.loads]; an object is held as the items of the
    dictionary built for it. *)
#[local] Unset Elimination Schemes.
Inductive json : Type :=
| JNull
| JBool (b : bool)
| JInt (n : Z)
| JFloat (text : str)
| JString (s : str)
| JArray (items : list json)
| JObject (items : list (str * json)).
#[local] Set Elimination Schemes.

(** [d.get(key)] on a dictionary. *)
Fixpoint dict_get (key : str) (items : list (str * json)) : option json :=
  match items with
  | [] => None
  | (k, v) :: rest => if str_eqb k key then Some v else dict_get key rest
  end.

(** [v == s] for a string literal [s]. *)
Definition json_is_str (s : str) (v : json) : bool :=
  match v with
  | JString s' => str_eqb s' s
  | _ => false
  end.

Fixpoint is_prefix (p s : str) : bool :=
  match p, s with
  | [], _ => true
  | x :: p', y :: s' => N.eqb x y && is_prefix p' s'
  | _ :: _, [] => false
  end.

(** [p in s] on strings. *)
Fixpoint contains (p s : str) : bool :=
  is_prefix p s || match s with [] => false | _ :: s' => contains p s' end.

Definition type_name (v : json) : str :=
  match v with
  | JNull => lit "NoneType"
  | JBool _ => lit "bool"
  | JInt _ => lit "int"
  | JFloat _ => lit "float"
  | JString _ => lit "str"
  | JArray _ => lit "list"
  | JObject _ => lit "dict"
  end.

Definition TypeError (msg : str) : exn :=
  {| exn_kind := OtherException; exn_str := msg |}.

Definition AttributeError (v : json) : exn :=
  {| exn_kind := OtherException;
     exn_str := lit "'" ++ type_name v ++ lit "' object has no attribute 'get'" |}.

(** A search hit: [doc['_source']] with its [title] and [content] fields,
    each possibly absent. *)
Record hit : Type := { source_title : option str; source_content : option str }.

Record message : Type := { role : str; message_content : str }.

(** The request body before [json.dumps]; the two ratios are kept as
    written in the source. *)
Record payload : Type := {
  anthropic_version : str;
  temperature : str;
  top_p : str;
  max_tokens : Z;
  messages : list message
}.

Inductive event : Type :=
| InvokeModel (modelId : str) (request : payload)
| Sleep (seconds : N).

Definition history : Type := list event.

(** Computations of this lambda. *)
Definition IO (A : Type) : Type := M event A.

(** [invoke_model] stands for the request, the read of the response body and
    [json.loads] on it; [environ_model_id] for
    [os.environ.get('BEDROCK_MODEL_ID')]. *)
Record services : Type := {
  invoke_model : history -> str -> payload -> reply json;
  environ_model_id : option str
}.

Definition default_model_id : str :=
  lit "arn:aws:bedrock:us-east-1:115322075248:inference-profile/us.anthropic.claude-3-5-sonnet-20241022-v2:0".

Section Program.
Variable sv : services.

Definition document_context (doc : hit) : str :=
  lit "Document: "
  ++ match source_title doc with Some t => t | None => lit "Unknown" end
  ++ [ch_newline] ++ lit "Content: "
  ++ match source_content doc with
     | Some c => c
     | None => lit "No content available"
     end.

Definition build_payload (query : str) (retrieved_docs : list hit) : payload :=
  let context := join [ch_newline] (map document_context retrieved_docs) in
  {| anthropic_version := lit "bedrock-2023-05-31";
     temperature := lit "0.7";
     top_p := lit "0.9";
     max_tokens := 1000;
     messages :=
       [ {| role := lit "user";
            message_content :=
              lit "Context:" ++ [ch_newline] ++ context
              ++ [ch_newline; ch_newline] ++ lit "Query: " ++ query |} ] |}.

(** The [for content_item in response_body['content']] loop. *)
Fixpoint first_text (items : list json) : IO json :=
  match items with
  | [] => ret (JString (lit "Error: Unable to parse model response."))
  | JObject fields :: rest =>
      if match dict_get (lit "type") fields with
         | Some v => json_is_str (lit "text") v
         | None => false
         end
      then ret (match dict_get (lit "text") fields with
                | Some v => v
                | None => JString []
                end)
      else first_text rest
  | other :: _ => raise (AttributeError other)
  end.

(** What the function does with the parsed response body. *)
Definition read_response (response_body : json) : IO json :=
  match response_body with
  | JObject fields =>
      match dict_get (lit "content") fields with
      | Some (JArray items) => first_text items
      | _ => ret (JString (lit "Error: Unable to parse model response."))
      end
  | JArray items =>
      if existsb (json_is_str (lit "content")) items
      then raise (TypeError (lit "list indices must be integers or slices, not str"))
      else ret (JString (lit "Error: Unable to parse model response."))
  | JString s =>
      if contains (lit "content") s
      then raise (TypeError (lit "string indices must be integers, not 'str'"))
      else ret (JString (lit "Error: Unable to parse model response."))
  | other =>
      raise (TypeError (lit "argument of type '" ++ type_name other
                        ++ lit "' is not iterable"))
  end.

(** [except (ClientError, boto3.exceptions.Boto3Error)]. *)
Definition caught (e : exn) : bool :=
  match exn_kind e with
  | ClientError | Boto3Error => true
  | OtherException => false
  end.

(** The iterations of [for attempt in range(max_retries)] from [attempt]
    on; [remaining] counts them. *)
Fixpoint attempts (remaining attempt max_retries : nat) (model_id : str)
    (request : payload) : IO json :=
  match remaining with
  | O => ret (JString (lit "Error: No valid response from Bedrock AI."))
  | S remaining' =>
      try_except
        (response_body <- call (InvokeModel model_id request)
                               (fun h => invoke_model sv h model_id request) ;;
         read_response response_body)
        (fun e =>
           if caught e then
             if Z.eqb (Z.of_nat attempt) (Z.of_nat max_retries - 1)
             then ret (JString (lit "Error generating response from Bedrock."))
             else emit (Sleep (2 ^ N.of_nat attempt)) ;;;
                  attempts remaining' (S attempt) max_retries model_id request
           else raise e)
  end.

Definition generate_response (query : str) (retrieved_docs : list hit)
    (max_retries : nat) : IO json :=
  match retrieved_docs with
  | [] => ret (JString (lit "No relevant documents found."))
  | _ =>
      let request := build_payload query retrieved_docs in
      let model_id :=
        match environ_model_id sv with
        | Some m => m
        | None => default_model_id
        end in
      attempts max_retries 0 max_retries model_id request
  end.
End Program.

(** ** Vocabulary of the properties *)

Definition is_invocation (ev : event) : bool :=
  match ev with InvokeModel _ _ => true | Sleep _ => false end.

(** The number of generation calls in a history. *)
Definition invocations (h : history) : nat := length (filter is_invocation h).

(** The model identifier the function settles on. *)
Definition model_id_of (sv : services) : str :=
  match environ_model_id sv with
  | Some m => m
  | None => default_model_id
  end.

(** ** Scripted environments for the examples *)

Definition Throttling : exn :=
  {| exn_kind := ClientError;
     exn_str := lit "An error occurred (ThrottlingException) when calling the InvokeModel operation: Too many requests" |}.

(** [botocore.exceptions.EndpointConnectionError]: neither a [ClientError]
    nor a [Boto3Error]. *)
Definition EndpointConnectionError : exn :=
  {| exn_kind := OtherException;
     exn_str := lit "Could not connect to the endpoint URL" |}.

Definition throttled : services :=
  {| invoke_model := fun _ _ _ => Err Throttling; environ_model_id := None |}.

Definition unreachable : services :=
  {| invoke_model := fun _ _ _ => Err EndpointConnectionError;
     environ_model_id := None |}.

Definition q1_hit : hit :=
  {| source_title := Some (lit "q1.txt");
     source_content := Some (lit "Revenue grew 10%.") |}.

(** ** The rest of the file: the index client, the search and the handler *)

Record credentials : Type := {
  access_key : str;
  secret_key : str;
  token : option str
}.

(** What [get_opensearch_client] reads: the credentials of the session
    ([None] when there are none) and two environment variables. *)
Record process_env : Type := {
  session_credentials : reply (option credentials);
  AWS_REGION : option str;
  OPENSEARCH_DOMAIN : option str
}.

(** The client as it is configured; building it sends no request. *)
Record client : Type := {
  host : str;
  port : Z;
  use_ssl : bool;
  verify_certs : bool;
  auth : credentials;
  auth_region : str;
  auth_service : str
}.

Definition get_opensearch_client (env : process_env) : reply client :=
  match session_credentials env with
  | Err e => Err e
  | Ok credentials =>
      let region :=
        match AWS_REGION env with
        | Some r => r
        | None => lit "us-east-1"
        end in
      match credentials with
      | None =>
          Err {| exn_kind := OtherException;
                 exn_str := lit "'NoneType' object has no attribute 'access_key'" |}
      | Some c =>
          match OPENSEARCH_DOMAIN env with
          | None =>
              Err {| exn_kind := OtherException;
                     exn_str := lit "'OPENSEARCH_DOMAIN'" |}
          | Some domain =>
              Ok {| host := domain; port := 443; use_ssl := true;
                    verify_certs := true; auth := c; auth_region := region;
                    auth_service := lit "es" |}
          end
      end
  end.

(** What [client.search] followed by [response["hits"]["hits"]] gives: the
    hits, an [OpenSearchException], or another exception. *)
Inductive search_answer : Type :=
| Hits (hits : list hit)
| OpenSearchException (message : str)
| SearchRaised (e : exn).

(** The body of the response of the handler before [json.dumps]. *)
Inductive response_content : Type :=
| ErrorMessage (error : str)
| Answer (query : json) (response : json) (sources : list hit).

Record response : Type := { statusCode : Z; body : response_content }.

(** A collaborator's answer that leaves no event: the index is asked
    before the first generation call. *)
Definition answered {A : Type} (r : reply A) : IO A :=
  fun h => match r with Ok a => Returned a h | Err e => Raised e h end.

Section Handler.
(** [json.loads] on a string. *)
Variable json_loads : str -> reply json.
(** Whether the number a float literal stands for is zero. *)
Variable float_is_zero : str -> bool.
(** [str(v)] of a value that is not a string. *)
Variable python_str : json -> str.
Variable env : process_env.
(** [client.search(index="enterprise-docs", body=..., )] with the query
    matched against [content] and [title], and the size asked for. *)
Variable search : client -> json -> nat -> search_answer.
Variable sv : services.

(** Truth value of a value built by [json.loads]. *)
Definition json_truthy (v : json) : bool :=
  match v with
  | JNull => false
  | JBool b => b
  | JInt n => negb (Z.eqb n 0)
  | JFloat text => negb (float_is_zero text)
  | JString s => truthy s
  | JArray items => match items with [] => false | _ => true end
  | JObject fields => match fields with [] => false | _ => true end
  end.

(** The query as an f-string renders it. *)
Definition format_query (query : json) : str :=
  match query with
  | JString s => s
  | other => python_str other
  end.

Definition retrieve_docs (query : json) (c : client) (max_results : nat)
  : reply (list hit) :=
  match search c query max_results with
  | Hits hits => Ok hits
  | OpenSearchException _ => Ok []
  | SearchRaised e => Err e
  end.

Definition lambda_handler (event : list (str * json)) : IO response :=
  try_except
    (match dict_get (lit "body") event with
     | None =>
         ret {| statusCode := 400;
                body := ErrorMessage (lit "Missing request body") |}
     | Some raw =>
         if negb (json_truthy raw)
         then ret {| statusCode := 400;
                     body := ErrorMessage (lit "Missing request body") |}
         else
           parsed <-
             answered
               match raw with
               | JString s => json_loads s
               | other =>
                   Err (TypeError
                          (lit "the JSON object must be str, bytes or bytearray, not "
                           ++ type_name other))
               end ;;
           query <-
             match parsed with
             | JObject fields => ret (dict_get (lit "query") fields)
             | other => raise (AttributeError other)
             end ;;
           match query with
           | None =>
               ret {| statusCode := 400;
                      body := ErrorMessage (lit "Missing 'query' parameter") |}
           | Some query =>
               if negb (json_truthy query)
               then ret {| statusCode := 400;
                           body := ErrorMessage
                                     (lit "Missing 'query' parameter") |}
               else
                 opensearch_client <- answered (get_opensearch_client env) ;;
                 retrieved_docs <-
                   answered (retrieve_docs query opensearch_client 5) ;;
                 ai_response <-
                   generate_response sv (format_query query) retrieved_docs 3 ;;
                 ret {| statusCode := 200;
                        body := Answer query ai_response retrieved_docs |}
           end
     end)
    (fun e => ret {| statusCode := 500; body := ErrorMessage (exn_str e) |}).

(** A request with a body that parses to an object holding a query. *)
Definition well_formed (event : list (str * json)) (query : json) : Prop :=
  exists text fields,
    dict_get (lit "body") event = Some (JString text)
    /\ text <> []
    /\ json_loads text = Ok (JObject fields)
    /\ dict_get (lit "query") fields = Some query
    /\ json_truthy query = true.
End Handler.

(** ** Further vocabulary *)

(** The seconds slept in a history. *)
Definition slept (h : history) : N :=
  fold_right (fun ev total =>
                match ev with
                | Sleep seconds => (seconds + total)%N
                | InvokeModel _ _ => total
                end) 0%N h.

(** [n] failed attempts from number [attempt] on, each followed by its
    back-off sleep. *)
Fixpoint failed_attempts (model_id : str) (request : payload)
    (attempt n : nat) : history :=
  match n with
  | O => []
  | S n' =>
      InvokeModel model_id request :: Sleep (2 ^ N.of_nat attempt)
      :: failed_attempts model_id request (S attempt) n'
  end.

(** A content item of the response that is an object of another type than
    "text". *)
Definition other_item (item : json) : bool :=
  match item with
  | JObject fields =>
      match dict_get (lit "type") fields with
      | Some v => negb (json_is_str (lit "text") v)
      | None => true
      end
  | _ => false
  end.

(** ** Further scripted environments *)

Definition text_item (text : string) : json :=
  JObject [ (lit "type", JString (lit "text")); (lit "text", JString (lit text)) ].

Definition model_answer : json :=
  JObject
    [ (lit "id", JString (lit "msg_01"));
      (lit "content",
       JArray [ JObject [ (lit "type", JString (lit "tool_use")) ];
                text_item "Revenue grew by ten percent.";
                text_item "unused" ]) ].

(** The model answers with an object that has no content. *)
Definition garbled : services :=
  {| invoke_model := fun _ _ _ =>
       Ok (JObject [ (lit "message", JString (lit "overloaded")) ]);
     environ_model_id := None |}.

(** The model is throttled for the first [busy] events of the history and
    answers afterwards. *)
Definition recovering (busy : nat) : services :=
  {| invoke_model := fun h _ _ =>
       if Nat.ltb (length h) busy then Err Throttling else Ok model_answer;
     environ_model_id := Some (lit "anthropic.claude-3-haiku") |}.

Definition configured : process_env :=
  {| session_credentials :=
       Ok (Some {| access_key := lit "AKIAEXAMPLE"; secret_key := lit "secret";
                   token := None |});
     AWS_REGION := None;
     OPENSEARCH_DOMAIN := Some (lit "search.example.com") |}.

Definition without_domain : process_env :=
  {| session_credentials := session_credentials configured;
     AWS_REGION := Some (lit "eu-west-1");
     OPENSEARCH_DOMAIN := None |}.

Definition quoted (s : string) : str := (34%N :: lit s) ++ [34%N].

(** The text of a request body that asks one question. *)
Definition revenue_body : str :=
  lit "{" ++ quoted "query" ++ lit ": " ++ quoted "How did revenue develop?"
  ++ lit "}".

(** A parser that knows two request bodies. *)
Definition two_bodies (s : str) : reply json :=
  if str_eqb s revenue_body
  then Ok (JObject [ (lit "query", JString (lit "How did revenue develop?")) ])
  else if str_eqb s (lit "{}")
  then Ok (JObject [])
  else Err {| exn_kind := OtherException;
              exn_str := lit "Expecting value: line 1 column 1 (char 0)" |}.

Definition no_float_is_zero (text : str) : bool := false.
Definition unused_str (v : json) : str := [].

Definition finds_q1 (c : client) (query : json) (size : nat) : search_answer :=
  Hits [q1_hit].

Definition index_down (c : client) (query : json) (size : nat) : search_answer :=
  OpenSearchException (lit "ConnectionError(connection refused)").

Definition request (s : str) : list (str * json) :=
  [ (lit "httpMethod", JString (lit "POST")); (lit "body", JString s) ].

End AiSearch.

(** * Facts about strings *)

Example unquote_plus_space :
  unquote_plus (lit "folder/my%20file.txt") = lit "folder/my file.txt".
Proof. reflexivity. Qed.

Example unquote_plus_mixed :
  unquote_plus (lit "a+b%2Bc%zz%4") = lit "a b+c%zz%4".
Proof. reflexivity. Qed.

Example unquote_plus_split_sequence :
  unquote_plus ([37; 67; 51; 233; 37; 65; 57]%N) = [65533; 233; 65533]%N.
Proof. reflexivity. Qed.

Example decode_replace_truncated :
  decode_replace [240; 144; 128; 65]%N = [65533; 65]%N.
Proof. reflexivity. Qed.

Example decode_strict_message :
  decode_strict [226; 130; 65]%N
  = inr (lit "'utf-8' codec can't decode bytes in position 0-1: invalid continuation byte").
Proof. reflexivity. Qed.

Lemma str_eqb_eq (a b : str) : str_eqb a b = true <-> a = b.
Proof.
  revert b. induction a as [|x a IH]; intros [|y b]; simpl; split;
    try reflexivity; try discriminate.
  - intros H. apply andb_true_iff in H. destruct H as [Hx Ha].
    apply N.eqb_eq in Hx. apply IH in Ha. congruence.
  - intros H. injection H as -> ->. rewrite N.eqb_refl. simpl. now apply IH.
Qed.

Lemma str_eqb_refl (a : str) : str_eqb a a = true.
Proof. now apply str_eqb_eq. Qed.

Lemma str_in_In (x : str) (l : list str) : str_in x l = true <-> In x l.
Proof.
  unfold str_in. rewrite existsb_exists. split.
  - intros [y [Hy Heq]]. apply str_eqb_eq in Heq. now subst.
  - intros H. exists x. split; [assumption | apply str_eqb_refl].
Qed.

Lemma split_on_nonempty (sep : codepoint) (s : str) : split_on sep s <> [].
Proof.
  destruct s as [|c s]; simpl; [discriminate|].
  destruct (N.eqb c sep); [discriminate|].
  destruct (split_on sep s); discriminate.
Qed.

(** A string without the separator is its own single piece. *)
Lemma split_on_absent (sep : codepoint) (s : str) :
  existsb (N.eqb sep) s = false -> split_on sep s = [s].
Proof.
  induction s as [|c s IH]; simpl; [reflexivity|].
  intros H. apply orb_false_iff in H. destruct H as [Hc Hs].
  rewrite N.eqb_sym, Hc, (IH Hs). reflexivity.
Qed.

(** Splitting at a separator splits the list of pieces. *)
Lemma split_on_app (sep : codepoint) (p s : str) :
  split_on sep (p ++ sep :: s) = split_on sep p ++ split_on sep s.
Proof.
  induction p as [|c p IH]; simpl.
  - rewrite N.eqb_refl. reflexivity.
  - rewrite IH. destruct (N.eqb c sep); [reflexivity|].
    pose proof (split_on_nonempty sep p) as Hne.
    destruct (split_on sep p); [contradiction | reflexivity].
Qed.

Lemma last_app_nonempty (A : Type) (l1 l2 : list A) (d : A) :
  l2 <> [] -> last (l1 ++ l2) d = last l2 d.
Proof.
  intros Hne. induction l1 as [|x l1 IH]; simpl; [reflexivity|].
  rewrite IH. destruct (l1 ++ l2) eqn:Happ; [|reflexivity].
  apply app_eq_nil in Happ. destruct Happ as [_ ->]. contradiction.
Qed.

(** The last piece only depends on what follows a separator. *)
Lemma last_item_split_after (sep : codepoint) (p s : str) :
  last_item (split_on sep (p ++ sep :: s)) = last_item (split_on sep s).
Proof.
  unfold last_item. rewrite split_on_app.
  apply last_app_nonempty, split_on_nonempty.
Qed.

(** [s.split(sep)[-1]] is the text after the last separator. *)
Lemma last_item_after_last (sep : codepoint) (p s : str) :
  existsb (N.eqb sep) s = false ->
  last_item (split_on sep (p ++ sep :: s)) = s.
Proof.
  intros H. rewrite last_item_split_after, (split_on_absent _ _ H). reflexivity.
Qed.

(** ... and the whole string when there is no separator at all. *)
Lemma last_item_no_separator (sep : codepoint) (s : str) :
  existsb (N.eqb sep) s = false -> last_item (split_on sep s) = s.
Proof. intros H. rewrite (split_on_absent _ _ H). reflexivity. Qed.

Lemma replace_plus_percent (s : str) :
  existsb (N.eqb ch_percent) (replace_plus s) = existsb (N.eqb ch_percent) s.
Proof.
  induction s as [|c s IH]; simpl; [reflexivity|].
  rewrite IH. f_equal.
  destruct (N.eqb_spec c ch_plus) as [->|Hne]; reflexivity.
Qed.

(** Without a percent sign, decoding only turns plus signs into spaces. *)
Lemma unquote_plus_no_percent (s : str) :
  existsb (N.eqb ch_percent) s = false -> unquote_plus s = replace_plus s.
Proof.
  intros H. unfold unquote_plus, unquote. rewrite replace_plus_percent, H.
  reflexivity.
Qed.

Lemma replace_plus_nth (s : str) (i : nat) :
  nth i (replace_plus s) 0%N
  = if N.eqb (nth i s 0%N) ch_plus then ch_space else nth i s 0%N.
Proof.
  revert i. induction s as [|c s IH]; intros [|i]; simpl; try reflexivity.
  apply IH.
Qed.

Lemma replace_plus_no_plus (s : str) : ~ In ch_plus (replace_plus s).
Proof.
  unfold replace_plus. rewrite in_map_iff. intros [c [Hc _]].
  destruct (N.eqb_spec c ch_plus) as [Heq|Hne]; [discriminate | now apply Hne].
Qed.

(** * Further facts about splitting and decoding *)

(** A string either has no separator or splits at its last one. *)
Lemma last_separator (sep : codepoint) (s : str) :
  existsb (N.eqb sep) s = false
  \/ exists p t, s = p ++ sep :: t /\ existsb (N.eqb sep) t = false.
Proof.
  induction s as [|c s IH].
  - left. reflexivity.
  - destruct IH as [Hno | [p [t [Hs Ht]]]].
    + destruct (N.eqb_spec sep c) as [<-|Hne].
      * right. exists [], s. split; [reflexivity | exact Hno].
      * left. simpl. apply N.eqb_neq in Hne. now rewrite Hne.
    + right. exists (c :: p), t. split; [now rewrite Hs | exact Ht].
Qed.

(** The pieces of a split, put back with the separator, are the string. *)
Lemma split_on_join (sep : codepoint) (s : str) :
  match split_on sep s with
  | [] => False
  | first :: items => s = first ++ concat (map (cons sep) items)
  end.
Proof.
  induction s as [|c s IH]; simpl.
  - reflexivity.
  - destruct (N.eqb_spec c sep) as [->|Hne].
    + destruct (split_on sep s) as [|first items]; [contradiction|].
      simpl. now rewrite IH at 1.
    + destruct (split_on sep s) as [|first items]; [contradiction|].
      simpl. now rewrite IH at 1.
Qed.

Lemma decode_replace_fuel_ascii (bs : bytes) :
  forall fuel, length bs <= fuel ->
    forallb is_ascii bs = true -> decode_replace_fuel fuel bs = bs.
Proof.
  induction bs as [|b bs IH]; intros fuel Hlen Hascii.
  - destruct fuel; reflexivity.
  - destruct fuel as [|fuel]; [simpl in Hlen; lia|].
    simpl in Hascii. apply andb_true_iff in Hascii. destruct Hascii as [Hb Hbs].
    cbn [decode_replace_fuel]. unfold utf8_step.
    unfold is_ascii in Hb. rewrite Hb. cbn [Nat.sub skipn].
    rewrite IH; [reflexivity | simpl in Hlen; lia | exact Hbs].
Qed.

(** Octets below 128 decode to themselves. *)
Lemma decode_replace_ascii (bs : bytes) :
  forallb is_ascii bs = true -> decode_replace bs = bs.
Proof. intros H. apply decode_replace_fuel_ascii; [lia | exact H]. Qed.

Lemma unquote_runs_ascii (s : str) :
  forall run, forallb is_ascii s = true ->
    unquote_runs run s = flush_run (run ++ s).
Proof.
  induction s as [|c s IH]; intros run Hascii.
  - now rewrite app_nil_r.
  - simpl in Hascii. apply andb_true_iff in Hascii. destruct Hascii as [Hc Hs].
    cbn [unquote_runs]. unfold is_ascii in Hc. rewrite Hc.
    rewrite (IH _ Hs), <- app_assoc. reflexivity.
Qed.

Lemma unquote_to_bytes_no_percent (s : str) :
  existsb (N.eqb ch_percent) s = false -> unquote_to_bytes s = s.
Proof.
  intros H. unfold unquote_to_bytes. rewrite (split_on_absent _ _ H).
  simpl. apply app_nil_r.
Qed.

(** On a key of ASCII characters whose escapes stand for ASCII octets,
    decoding is the replacement of the escapes and nothing else. *)
Lemma unquote_ascii (s : str) :
  forallb is_ascii s = true ->
  forallb is_ascii (unquote_to_bytes s) = true ->
  unquote s = unquote_to_bytes s.
Proof.
  intros Hs Hb. unfold unquote.
  destruct (existsb (N.eqb ch_percent) s) eqn:Hp.
  - rewrite (unquote_runs_ascii s [] Hs). simpl. unfold flush_run.
    destruct s as [|c s]; [discriminate|].
    now apply decode_replace_ascii.
  - symmetry. now apply unquote_to_bytes_no_percent.
Qed.

Lemma replace_plus_ascii (s : str) :
  forallb is_ascii s = true -> forallb is_ascii (replace_plus s) = true.
Proof.
  induction s as [|c s IH]; simpl; [reflexivity|].
  intros H. apply andb_true_iff in H. destruct H as [Hc Hs].
  rewrite (IH Hs), andb_true_r.
  destruct (N.eqb c ch_plus); [reflexivity | exact Hc].
Qed.

(** An escape that is not two hexadecimal digits keeps its percent sign. *)
Lemma unquote_item_malformed (item : str) :
  is_escape item = false -> unquote_item item = ch_percent :: item.
Proof.
  unfold is_escape, unquote_item. destruct item as [|h [|l rest]]; try reflexivity.
  intros ->. reflexivity.
Qed.

Lemma unquote_to_bytes_malformed (s : str) :
  forallb (fun item => negb (is_escape item)) (escape_items s) = true ->
  unquote_to_bytes s = s.
Proof.
  unfold escape_items, unquote_to_bytes.
  pose proof (split_on_join ch_percent s) as Hjoin.
  destruct (split_on ch_percent s) as [|first items]; [contradiction|].
  simpl. intros Hbad. rewrite Hjoin. f_equal. f_equal.
  clear Hjoin. induction items as [|item items IH]; [reflexivity|].
  simpl in Hbad. apply andb_true_iff in Hbad. destruct Hbad as [Hitem Hrest].
  simpl. rewrite (IH Hrest). f_equal.
  apply unquote_item_malformed. now apply negb_true_iff.
Qed.

Lemma replace_plus_id (s : str) :
  existsb (N.eqb ch_plus) s = false -> replace_plus s = s.
Proof.
  induction s as [|c s IH]; [reflexivity|].
  cbn [existsb]. intros H. apply orb_false_iff in H. destruct H as [Hc Hs].
  cbn [replace_plus map]. fold (replace_plus s).
  rewrite (IH Hs), N.eqb_sym, Hc. reflexivity.
Qed.

Lemma split_on_replace_plus (s : str) :
  split_on ch_percent (replace_plus s)
  = map replace_plus (split_on ch_percent s).
Proof.
  induction s as [|c s IH]; [reflexivity|].
  cbn [replace_plus map split_on]. fold (replace_plus s). rewrite IH.
  destruct (N.eqb_spec c ch_plus) as [->|Hplus].
  - simpl. destruct (split_on ch_percent s); reflexivity.
  - destruct (N.eqb c ch_percent).
    + reflexivity.
    + destruct (split_on ch_percent s) as [|w ws]; simpl.
      * apply N.eqb_neq in Hplus. now rewrite Hplus.
      * apply N.eqb_neq in Hplus. now rewrite Hplus.
Qed.

Lemma is_escape_replace_plus (item : str) :
  is_escape (replace_plus item) = is_escape item.
Proof.
  assert (Hhex : forall c,
             is_hexdig (if N.eqb c ch_plus then ch_space else c) = is_hexdig c).
  { intros c. destruct (N.eqb_spec c ch_plus) as [->|_]; reflexivity. }
  destruct item as [|h [|l rest]]; try reflexivity.
  simpl. now rewrite !Hhex.
Qed.

(** X1: a key with neither a percent sign nor a plus sign is its own decoded
    key, so its title and extension are read off the key as delivered. *)
Theorem unquote_plus_is_identity_without_escapes (key : str) :
  existsb (N.eqb ch_percent) key = false ->
  existsb (N.eqb ch_plus) key = false ->
  unquote_plus key = key.
Proof.
  intros Hp Hplus. rewrite (unquote_plus_no_percent _ Hp).
  now apply replace_plus_id.
Qed.

Lemma unquote_plus_is_identity_without_escapes_witness :
  unquote_plus (lit "reports/2024/q1 summary.txt")
  = lit "reports/2024/q1 summary.txt".
Proof.
  apply unquote_plus_is_identity_without_escapes; reflexivity.
Defined.

(** X2: on a key of ASCII characters whose escapes stand for ASCII octets, the
    decoded key is the key with every plus sign turned into a space and every
    escape of two hexadecimal digits replaced by its octet: the UTF-8 decoding
    changes nothing. *)
Theorem unquote_plus_replaces_ascii_escapes (key : str) :
  forallb is_ascii key = true ->
  forallb is_ascii (unquote_to_bytes (replace_plus key)) = true ->
  unquote_plus key
  = match split_on ch_percent (replace_plus key) with
    | [] => []
    | first :: items => first ++ concat (map unquote_item items)
    end.
Proof.
  intros Hkey Hbytes. unfold unquote_plus.
  rewrite (unquote_ascii _ (replace_plus_ascii _ Hkey) Hbytes). reflexivity.
Qed.

Lemma unquote_plus_replaces_ascii_escapes_witness :
  unquote_plus (lit "in%2Fout/my%20file+v2%7E.txt")
  = lit "in/out/my file v2~.txt".
Proof.
  apply (unquote_plus_replaces_ascii_escapes (lit "in%2Fout/my%20file+v2%7E.txt"));
    reflexivity.
Defined.

(** X3: in a key of ASCII characters, a percent sign that is not followed by two
    hexadecimal digits is kept as it is: when no escape of the key is well
    formed, decoding only turns the plus signs into spaces. *)
Theorem unquote_plus_keeps_malformed_escapes (key : str) :
  forallb is_ascii key = true ->
  forallb (fun item => negb (is_escape item)) (escape_items key) = true ->
  unquote_plus key = replace_plus key.
Proof.
  intros Hkey Hbad.
  assert (Hbytes : unquote_to_bytes (replace_plus key) = replace_plus key).
  { apply unquote_to_bytes_malformed. unfold escape_items in *.
    rewrite split_on_replace_plus.
    destruct (split_on ch_percent key) as [|first items]; [reflexivity|].
    cbn [map tl] in *. induction items as [|item items IH]; [reflexivity|].
    cbn [map forallb] in *. apply andb_true_iff in Hbad.
    destruct Hbad as [Hitem Hrest].
    now rewrite is_escape_replace_plus, Hitem, (IH Hrest). }
  unfold unquote_plus.
  rewrite (unquote_ascii (replace_plus key)).
  - exact Hbytes.
  - now apply replace_plus_ascii.
  - rewrite Hbytes. now apply replace_plus_ascii.
Qed.

Lemma unquote_plus_keeps_malformed_escapes_witness :
  unquote_plus (lit "sale+50%+off%zz%4.txt") = lit "sale 50% off%zz%4.txt".
Proof.
  apply (unquote_plus_keeps_malformed_escapes (lit "sale+50%+off%zz%4.txt"));
    reflexivity.
Defined.

(** * Reasoning about histories *)

Section EffectLemmas.
Variable E : Type.
Variable P : E -> Prop.

Lemma emits_only_ret (A : Type) (a : A) : emits_only P (ret (E := E) a).
Proof. intros h. exists []. rewrite app_nil_r. split; [reflexivity | constructor]. Qed.

Lemma emits_only_raise (A : Type) (e : exn) : emits_only P (raise (E := E) (A := A) e).
Proof. intros h. exists []. rewrite app_nil_r. split; [reflexivity | constructor]. Qed.

Lemma emits_only_out_of_fuel (A : Type) :
  emits_only P (out_of_fuel (E := E) (A := A)).
Proof. intros h. exists []. rewrite app_nil_r. split; [reflexivity | constructor]. Qed.

Lemma emits_only_call (A : Type) (ev : E) (answer : list E -> reply A) :
  P ev -> emits_only P (call ev answer).
Proof.
  intros Hev h. exists [ev]. unfold call.
  destruct (answer h); simpl; (split; [reflexivity | repeat constructor; exact Hev]).
Qed.

Lemma emits_only_emit (ev : E) : P ev -> emits_only P (emit ev).
Proof.
  intros Hev h. exists [ev]. simpl. split; [reflexivity | repeat constructor; exact Hev].
Qed.

Lemma emits_only_bind (A B : Type) (m : M E A) (k : A -> M E B) :
  emits_only P m -> (forall a, emits_only P (k a)) -> emits_only P (bind m k).
Proof.
  intros Hm Hk h. unfold bind.
  destruct (Hm h) as [t [Ht Pt]].
  destruct (m h) as [a h1 | e h1 | h1]; simpl in Ht; subst h1.
  - destruct (Hk a (h ++ t)) as [t' [Ht' Pt']].
    exists (t ++ t'). rewrite Ht', app_assoc. split; [reflexivity|].
    apply Forall_app; split; assumption.
  - exists t. split; [reflexivity | assumption].
  - exists t. split; [reflexivity | assumption].
Qed.

Lemma emits_only_try_except (A : Type) (m : M E A) (handler : exn -> M E A) :
  emits_only P m -> (forall e, emits_only P (handler e)) ->
  emits_only P (try_except m handler).
Proof.
  intros Hm Hh h. unfold try_except.
  destruct (Hm h) as [t [Ht Pt]].
  destruct (m h) as [a h1 | e h1 | h1]; simpl in Ht; subst h1.
  - exists t. split; [reflexivity | assumption].
  - destruct (Hh e (h ++ t)) as [t' [Ht' Pt']].
    exists (t ++ t'). rewrite Ht', app_assoc. split; [reflexivity|].
    apply Forall_app; split; assumption.
  - exists t. split; [reflexivity | assumption].
Qed.
End EffectLemmas.

(** * Properties of the ingestion lambda *)

Module IngestionFacts.
Import DocumentIngestion.

Section Dispatch.
Variable lower_nonascii : str -> nat -> str.
Variable sv : services.

Lemma plain_not_office (ext : str) :
  str_in ext plain_extensions = true -> str_in ext office_extensions = false.
Proof.
  intros H. apply str_in_In in H. simpl in H.
  destruct H as [<-|[<-|[<-|[]]]]; reflexivity.
Qed.

Lemma office_not_plain (ext : str) :
  str_in ext office_extensions = true -> str_in ext plain_extensions = false.
Proof.
  intros H. apply str_in_In in H. simpl in H.
  destruct H as [<-|[<-|[]]]; reflexivity.
Qed.

(** The function tries the strategies of the category of the extension,
    inside its one exception handler. *)
Lemma extract_dispatch (fuel : nat) (bucket key : str) (h : history) :
  extract_text_from_file lower_nonascii sv fuel bucket key h
  = try_except
      (by_category lower_nonascii sv fuel bucket key (unquote_plus key)
         (classify (file_ext lower_nonascii (unquote_plus key))))
      (fun e => ret (exn_str e)) h.
Proof.
  unfold extract_text_from_file, classify, by_category, textract_or_unsupported.
  destruct (str_in _ plain_extensions) eqn:Hp; [reflexivity|].
  destruct (str_in _ office_extensions) eqn:Ho.
  - rewrite orb_true_r. reflexivity.
  - rewrite andb_false_l, orb_false_r.
    destruct (str_in _ ocr_extensions); reflexivity.
Qed.
End Dispatch.

(** Composition of history predicates, step by step. *)
Ltac emits_step :=
  match goal with
  | |- emits_only _ (bind _ _) => apply emits_only_bind; [|intros ?]
  | |- emits_only _ (try_except _ _) => apply emits_only_try_except; [|intros ?]
  | |- emits_only _ (ret _) => apply emits_only_ret
  | |- emits_only _ (raise _) => apply emits_only_raise
  | |- emits_only _ out_of_fuel => apply emits_only_out_of_fuel
  | |- emits_only _ (call _ _) => apply emits_only_call; simpl; auto
  | |- emits_only _ (emit _) => apply emits_only_emit; simpl; auto
  | |- emits_only _ (if ?b then _ else _) => destruct b
  | |- emits_only _ (match ?x with _ => _ end) => destruct x
  | |- emits_only _ (let '(_, _) := ?x in _) => destruct x
  end.

Section Events.
Variable lower_nonascii : str -> nat -> str.
Variable sv : services.
Variables bucket key : str.

Lemma docx_events (decoded_key : option str) :
  emits_only (record_event_ok lower_nonascii bucket key) (extract_text_from_docx sv bucket key decoded_key).
Proof. unfold extract_text_from_docx, record_event_ok. repeat emits_step. Qed.

Lemma poll_events_ok (fuel : nat) (job_id : str) :
  emits_only (record_event_ok lower_nonascii bucket key) (poll sv fuel job_id).
Proof.
  unfold record_event_ok.
  induction fuel as [|fuel IH]; simpl; repeat emits_step. exact IH.
Qed.

Lemma get_pages_events (fuel : nat) (job_id : str) (token : option str)
    (acc : list str) :
  emits_only (record_event_ok lower_nonascii bucket key) (get_pages sv fuel job_id token acc).
Proof.
  unfold record_event_ok.
  revert token acc. induction fuel as [|fuel IH]; intros token acc; simpl;
    repeat emits_step; apply IH.
Qed.

Lemma textract_branch_events (fuel : nat) :
  emits_only (record_event_ok lower_nonascii bucket key) (textract_branch sv fuel bucket key).
Proof.
  unfold textract_branch. emits_step.
  - unfold record_event_ok. emits_step.
  - emits_step; [apply poll_events_ok|].
    repeat emits_step. apply get_pages_events.
Qed.

Lemma extract_events (fuel : nat) :
  emits_only (record_event_ok lower_nonascii bucket key) (extract_text_from_file lower_nonascii sv fuel bucket key).
Proof.
  unfold extract_text_from_file, textract_or_unsupported.
  emits_step; [|emits_step].
  destruct (str_in _ plain_extensions).
  - emits_step; [unfold record_event_ok; emits_step | repeat emits_step].
  - destruct (str_in _ office_extensions).
    + emits_step; [apply docx_events|].
      repeat emits_step; apply textract_branch_events.
    + repeat emits_step; apply textract_branch_events.
Qed.

Lemma process_record_events (fuel : nat) :
  emits_only (record_event_ok lower_nonascii bucket key)
    (process_record lower_nonascii sv fuel
       {| bucket_name := bucket; object_key := key |}).
Proof.
  unfold process_record. simpl.
  emits_step; [apply extract_events|].
  destruct (negb (truthy a)); [emits_step|].
  unfold record_event_ok.
  repeat emits_step.
Qed.
End Events.

Section KeyEncoding.
Variable lower_nonascii : str -> nat -> str.
Variable sv : services.

(** C3: whatever the collaborators answer and however the record ends,
    every object retrieval, job submission and metadata request made for a
    record names the raw key as delivered, and a committed document has the
    raw key as its identifier and the last path segment of the decoded key as
    its title.  For "folder/my%20file.txt" the calls carry the encoded key
    and the title reads "my file.txt". *)
Theorem storage_calls_use_raw_key_title_uses_decoded_key
    (fuel : nat) (record : s3_record) :
  emits_only
    (fun ev =>
       storage_call_uses (bucket_name record) (object_key record) ev
       /\ match ev with
          | Index _ id doc _ =>
              id = object_key record
              /\ document_id doc = object_key record
              /\ title doc = last_item (split_on ch_slash
                                          (unquote_plus (object_key record)))
          | _ => True
          end)
    (process_record lower_nonascii sv fuel record)
  /\ history_of (lambda_handler keep_nonascii sample fuel
                   [on "docs" "folder/my%20file.txt"] [])
     = [ GetObject (lit "docs") (lit "folder/my%20file.txt");
         UtcNow;
         HeadObject (lit "docs") (lit "folder/my%20file.txt");
         UtcNow;
         GetOpenSearchClient;
         Index (lit "enterprise-docs") (lit "folder/my%20file.txt")
           {| content := lit "hello";
              title := lit "my file.txt";
              document_id := lit "folder/my%20file.txt";
              file_type := lit "txt";
              upload_date := lit "2024-05-01T09:00:00.3";
              last_modified := lit "2024-04-30T18:30:00+00:00" |}
           true ].
Proof.
  split; [|reflexivity].
  destruct record as [bucket key]. simpl.
  intros h.
  destruct (process_record_events lower_nonascii sv bucket key fuel h)
    as [t [Ht Pt]].
  exists t. split; [exact Ht|].
  eapply Forall_impl; [|exact Pt].
  intros ev [Hs Hi]. split; [exact Hs|].
  destruct ev; trivial.
  destruct Hi as [Hid [Hdoc [Htitle _]]]. auto.
Qed.

(** C10: the decoded key is the raw key with every plus sign turned into a
    space and then percent-decoded (with no percent sign in the key, the plus
    signs are all that changes); the strategies are chosen by the extension
    of that string, the title and the file type of a committed document are
    computed from it, and the storage calls still name the raw key. *)
Theorem plus_signs_are_decoded_for_display_only
    (fuel : nat) (record : s3_record) :
  let bucket := bucket_name record in
  let key := object_key record in
  let decoded := unquote (replace_plus key) in
  (existsb (N.eqb ch_percent) key = false ->
   unquote_plus key = map (fun c => if N.eqb c ch_plus then ch_space else c) key)
  /\ (forall h,
        extract_text_from_file lower_nonascii sv fuel bucket key h
        = try_except
            (by_category lower_nonascii sv fuel bucket key decoded
               (classify (file_ext lower_nonascii decoded)))
            (fun e => ret (exn_str e)) h)
  /\ emits_only
       (fun ev =>
          storage_call_uses bucket key ev
          /\ match ev with
             | Index _ _ doc _ =>
                 title doc = title_of decoded
                 /\ file_type doc = file_ext lower_nonascii decoded
             | _ => True
             end)
       (process_record lower_nonascii sv fuel record)
  /\ history_of (lambda_handler keep_nonascii sample fuel
                   [on "docs" "q1+final.txt"] [])
     = [ GetObject (lit "docs") (lit "q1+final.txt");
         UtcNow;
         HeadObject (lit "docs") (lit "q1+final.txt");
         UtcNow;
         GetOpenSearchClient;
         Index (lit "enterprise-docs") (lit "q1+final.txt")
           {| content := lit "totals";
              title := lit "q1 final.txt";
              document_id := lit "q1+final.txt";
              file_type := lit "txt";
              upload_date := lit "2024-05-01T09:00:00.3";
              last_modified := lit "2024-04-30T18:30:00+00:00" |}
           true ].
Proof.
  intros bucket key decoded. split; [|split; [|split]].
  - intros H. now apply unquote_plus_no_percent.
  - intros h. apply extract_dispatch.
  - destruct record as [b k]. simpl in *. intros h.
    destruct (process_record_events lower_nonascii sv b k fuel h)
      as [t [Ht Pt]].
    exists t. split; [exact Ht|].
    eapply Forall_impl; [|exact Pt].
    intros ev [Hs Hi]. split; [exact Hs|].
    destruct ev; trivial.
    destruct Hi as [_ [_ [Htitle Htype]]]. split; assumption.
  - reflexivity.
Qed.
End KeyEncoding.

Lemma plus_signs_are_decoded_for_display_only_witness :
  existsb (N.eqb ch_percent) (lit "q1+final.txt") = false
  /\ unquote_plus (lit "q1+final.txt") = lit "q1 final.txt".
Proof.
  split; [reflexivity|].
  apply (proj1 (plus_signs_are_decoded_for_display_only keep_nonascii sample 0
                  (on "docs" "q1+final.txt"))).
  reflexivity.
Defined.

Lemma poll_events_length (job_id : str) (n : nat) :
  length (poll_events job_id n) = 2 * n.
Proof. induction n as [|n IH]; simpl; [reflexivity | rewrite IH; lia]. Qed.

Lemma poll_events_shift (job_id : str) (h : history) (k : nat) :
  ((h ++ [GetDocumentAnalysis job_id None]) ++ [Sleep 3]) ++ poll_events job_id k
  = h ++ poll_events job_id (S k).
Proof. simpl. rewrite <- !app_assoc. reflexivity. Qed.

Lemma poll_unfold (sv : services) (fuel : nat) (job_id : str) (h : history) :
  poll sv (S fuel) job_id h
  = match get_document_analysis sv h job_id None with
    | Ok response =>
        if str_in (JobStatus response) terminal_statuses
        then Returned response (h ++ [GetDocumentAnalysis job_id None])
        else poll sv fuel job_id
               ((h ++ [GetDocumentAnalysis job_id None]) ++ [Sleep 3])
    | Err e => Raised e (h ++ [GetDocumentAnalysis job_id None])
    end.
Proof.
  cbn [poll]. unfold bind, call.
  destruct (get_document_analysis sv h job_id None) as [r|e]; [|reflexivity].
  destruct (str_in (JobStatus r) terminal_statuses); reflexivity.
Qed.

(** While the job is reported running, the loop keeps polling and sleeping. *)
Lemma poll_while_running (sv : services) (job_id : str) (n : nat) :
  forall (h : history) (fuel : nat),
    (forall k, k < n -> reports_running sv h job_id k) ->
    n <= fuel ->
    poll sv fuel job_id h
    = poll sv (fuel - n) job_id (h ++ poll_events job_id n).
Proof.
  induction n as [|n IH]; intros h fuel Hrun Hle.
  - simpl. now rewrite Nat.sub_0_r, app_nil_r.
  - destruct fuel as [|fuel]; [lia|].
    destruct (Hrun 0) as [r [Hr Hs]]; [lia|].
    simpl in Hr. rewrite app_nil_r in Hr.
    rewrite poll_unfold, Hr, Hs, IH.
    + rewrite poll_events_shift. reflexivity.
    + intros k Hk. destruct (Hrun (S k)) as [r' [Hr' Hs']]; [lia|].
      exists r'. split; [|exact Hs']. rewrite poll_events_shift. exact Hr'.
    + lia.
Qed.

(** C7: while the job is reported running the loop polls, sleeps three
    seconds and polls again; it returns at the first poll answered with
    SUCCEEDED or FAILED, after exactly as many sleeps as there were running
    answers; as long as no terminal status is reported it has not returned,
    whatever the fuel; and no number of polls bounds it. *)
Theorem poll_stops_exactly_at_first_terminal_status
    (sv : services) (job_id : str) (h : history) :
  (forall (n fuel : nat) (r : analysis),
      (forall k, k < n -> reports_running sv h job_id k) ->
      get_document_analysis sv (h ++ poll_events job_id n) job_id None = Ok r ->
      str_in (JobStatus r) terminal_statuses = true ->
      n < fuel ->
      poll sv fuel job_id h
      = Returned r (h ++ poll_events job_id n ++ [GetDocumentAnalysis job_id None]))
  /\ (forall fuel : nat,
        (forall k, k < fuel -> reports_running sv h job_id k) ->
        poll sv fuel job_id h = OutOfFuel (h ++ poll_events job_id fuel))
  /\ (forall n : nat, exists (sv' : services) (r : analysis),
        poll sv' (S n) job_id h
        = Returned r (h ++ poll_events job_id n
                        ++ [GetDocumentAnalysis job_id None])).
Proof.
  assert (Hstop : forall (w : services) (n fuel : nat) (r : analysis),
             (forall k, k < n -> reports_running w h job_id k) ->
             get_document_analysis w (h ++ poll_events job_id n) job_id None = Ok r ->
             str_in (JobStatus r) terminal_statuses = true ->
             n < fuel ->
             poll w fuel job_id h
             = Returned r (h ++ poll_events job_id n
                             ++ [GetDocumentAnalysis job_id None])).
  { intros w n fuel r Hrun Hr Hs Hlt.
    rewrite (@poll_while_running w job_id n h fuel Hrun) by lia.
    destruct (fuel - n) as [|f] eqn:Hf; [lia|].
    rewrite poll_unfold, Hr, Hs. now rewrite app_assoc. }
  split; [|split].
  - apply Hstop.
  - intros fuel Hrun. rewrite (@poll_while_running sv job_id fuel h fuel Hrun) by lia.
    now rewrite Nat.sub_diag.
  - intros n. exists (slow (length h + 2 * n)), one_page.
    apply Hstop; [| | reflexivity | lia].
    + intros k Hk. exists in_progress. split; [|reflexivity].
      change (slow_job (length h + 2 * n) (h ++ poll_events job_id k) None
              = Ok in_progress).
      unfold slow_job. rewrite length_app, poll_events_length.
      destruct (Nat.ltb_spec (length h + 2 * k) (length h + 2 * n)); [reflexivity | lia].
    + change (slow_job (length h + 2 * n) (h ++ poll_events job_id n) None
              = Ok one_page).
      unfold slow_job. rewrite length_app, poll_events_length.
      destruct (Nat.ltb_spec (length h + 2 * n) (length h + 2 * n)); [lia | reflexivity].
Qed.

Lemma poll_stops_exactly_at_first_terminal_status_witness :
  poll (slow 4) 5 (lit "job-1") []
  = Returned one_page
      (poll_events (lit "job-1") 2 ++ [GetDocumentAnalysis (lit "job-1") None])
  /\ poll stuck 3 (lit "job-1") [] = OutOfFuel (poll_events (lit "job-1") 3).
Proof.
  destruct (poll_stops_exactly_at_first_terminal_status (slow 4) (lit "job-1") [])
    as [Hstop _].
  destruct (poll_stops_exactly_at_first_terminal_status stuck (lit "job-1") [])
    as [_ [Hnever _]].
  split.
  - apply (Hstop 2 5 one_page).
    + intros [|[|k]] Hk.
      * exists in_progress. split; reflexivity.
      * exists in_progress. split; reflexivity.
      * lia.
    + reflexivity.
    + reflexivity.
    + lia.
  - apply Hnever. intros k _. exists in_progress. split; reflexivity.
Defined.

Section Pagination.
Variable sv : services.

Lemma get_pages_unfold (fuel : nat) (job_id : str) (token : option str)
    (acc : list str) (h : history) :
  get_pages sv (S fuel) job_id token acc h
  = let sent := if truthy_opt token then token else None in
    match get_document_analysis sv h job_id sent with
    | Ok response =>
        match NextToken response with
        | Some t =>
            get_pages sv fuel job_id (Some t)
              (acc ++ line_texts (Blocks response))
              (h ++ [GetDocumentAnalysis job_id sent])
        | None =>
            Returned (acc ++ line_texts (Blocks response))
              (h ++ [GetDocumentAnalysis job_id sent])
        end
    | Err e => Raised e (h ++ [GetDocumentAnalysis job_id sent])
    end.
Proof.
  cbn [get_pages]. unfold bind, call.
  destruct (truthy_opt token);
    (destruct (get_document_analysis sv h job_id _) as [r|e]; [|reflexivity]);
    destruct (NextToken r); reflexivity.
Qed.

(** The page loop fetches every page of a chain, one request per page, and
    gathers the line texts in page order. *)
Lemma get_pages_all (h0 : history) (job_id : str) (pages : list analysis) :
  forall (token : option str) (fuel : nat) (acc : list str) (t : history),
    serves_pages sv h0 job_id token pages ->
    (if truthy_opt token then token else None) = token ->
    length pages <= fuel ->
    get_pages sv fuel job_id token acc (h0 ++ t)
    = Returned (acc ++ all_line_texts pages)
        (h0 ++ t ++ page_requests job_id token pages).
Proof.
  induction pages as [|p rest IH]; intros token fuel acc t Hserve Htok Hlen.
  - destruct Hserve.
  - destruct fuel as [|fuel]; [simpl in Hlen; lia|].
    destruct Hserve as [Hp Hrest].
    rewrite get_pages_unfold. cbv zeta. rewrite Htok, Hp.
    destruct rest as [|q rest'].
    + rewrite Hrest. unfold all_line_texts. simpl.
      now rewrite !app_nil_r, <- app_assoc.
    + destruct Hrest as [tk [Hnext [Hne Hchain]]]. rewrite Hnext.
      rewrite <- app_assoc.
      rewrite (IH (Some tk) fuel _ _ Hchain).
      * unfold all_line_texts.
        cbn [flat_map page_requests]. rewrite Hnext.
        now rewrite <- !app_assoc.
      * destruct tk; [contradiction | reflexivity].
      * simpl in Hlen |- *. lia.
Qed.

(** C6: when the job has succeeded and the service holds its [N] result
    pages, linked by page tokens, the strategy sends exactly one request per
    page, each carrying the token of the page before, and returns the line
    texts of all the pages, in page order, joined by newlines. *)
Theorem all_result_pages_are_concatenated
    (fuel : nat) (bucket key job_id : str) (h h1 : history) (r : analysis)
    (pages : list analysis) :
  start_document_analysis sv h bucket key = Ok job_id ->
  poll sv fuel job_id (h ++ [StartDocumentAnalysis bucket key]) = Returned r h1 ->
  JobStatus r = lit "SUCCEEDED" ->
  serves_pages sv h1 job_id None pages ->
  length pages <= fuel ->
  textract_branch sv fuel bucket key h
  = Returned (join [ch_newline] (all_line_texts pages))
      (h1 ++ page_requests job_id None pages)
  /\ length (page_requests job_id None pages) = length pages.
Proof.
  intros Hstart Hpoll Hstatus Hserve Hlen. split.
  - unfold textract_branch, bind at 1. unfold call. rewrite Hstart.
    unfold bind at 1. rewrite Hpoll, Hstatus.
    change (str_eqb (lit "SUCCEEDED") (lit "SUCCEEDED")) with true. cbv iota.
    unfold bind.
    pose proof (@get_pages_all h1 job_id pages None fuel [] [] Hserve eq_refl Hlen)
      as Hpages.
    rewrite !app_nil_r in Hpages. rewrite Hpages. reflexivity.
  - clear. generalize (@None str) as token.
    induction pages as [|p rest IH]; intros token; simpl; [reflexivity|].
    now rewrite IH.
Qed.
End Pagination.

Lemma all_result_pages_are_concatenated_witness :
  textract_branch paged 3 (lit "docs") (lit "scan.pdf") []
  = Returned (lit "Annual report" ++ [ch_newline] ++ lit "2023" ++ [ch_newline]
              ++ lit "Revenue" ++ [ch_newline] ++ lit "Outlook" ++ [ch_newline]
              ++ lit "End")
      [ StartDocumentAnalysis (lit "docs") (lit "scan.pdf");
        GetDocumentAnalysis (lit "job-1") None;
        GetDocumentAnalysis (lit "job-1") None;
        GetDocumentAnalysis (lit "job-1") (Some (lit "p2"));
        GetDocumentAnalysis (lit "job-1") (Some (lit "p3")) ].
Proof.
  refine (proj1 (@all_result_pages_are_concatenated paged 3 (lit "docs")
                  (lit "scan.pdf") (lit "job-1") []
                  [ StartDocumentAnalysis (lit "docs") (lit "scan.pdf");
                    GetDocumentAnalysis (lit "job-1") None ]
                  page_1 [page_1; page_2; page_3]
                  eq_refl eq_refl eq_refl _ (le_n 3))).
  split; [intros t; reflexivity|].
  exists (lit "p2"). split; [reflexivity|]. split; [discriminate|].
  split; [intros t; reflexivity|].
  exists (lit "p3"). split; [reflexivity|]. split; [discriminate|].
  split; [intros t; reflexivity | reflexivity].
Defined.

Section Fallback.
Variable lower_nonascii : str -> nat -> str.
Variable sv : services.

(** What the conversion yields: the converter's output when the temporary
    directory, the retrieval and the converter all succeed and the exit code
    is zero, [None] in every other case.  It never raises. *)
Lemma docx_outcome (bucket key : str) (decoded_key : option str) (h : history) :
  exists t1,
    extract_text_from_docx sv bucket key decoded_key h
    = Returned
        match temporary_directory sv h with
        | Err _ => None
        | Ok _ =>
            match get_object sv (h ++ [TemporaryDirectory]) bucket key with
            | Err _ => None
            | Ok body =>
                match pandoc sv ((h ++ [TemporaryDirectory])
                                 ++ [GetObject bucket key]) body with
                | Err _ => None
                | Ok (returncode, stdout, _) =>
                    if Z.eqb returncode 0 then Some stdout else None
                end
            end
        end
        (h ++ TemporaryDirectory :: t1).
Proof.
  unfold extract_text_from_docx, try_except, bind, call.
  destruct (temporary_directory sv h) as [[]|e].
  - destruct (get_object sv _ bucket key) as [body|e].
    + destruct (pandoc sv _ body) as [[[rc out] err]|e].
      * exists [GetObject bucket key; Pandoc body].
        rewrite <- !app_assoc. destruct (Z.eqb rc 0); reflexivity.
      * exists [GetObject bucket key; Pandoc body].
        rewrite <- !app_assoc. reflexivity.
    + exists [GetObject bucket key]. rewrite <- !app_assoc. reflexivity.
  - exists []. reflexivity.
Qed.

(** The layout-analysis branch starts by submitting the object. *)
Lemma textract_branch_submits (fuel : nat) (bucket key : str) (h : history) :
  exists t,
    history_of (textract_branch sv fuel bucket key h)
    = h ++ StartDocumentAnalysis bucket key :: t.
Proof.
  unfold textract_branch, bind at 1. unfold call.
  destruct (start_document_analysis sv h bucket key) as [job_id|e].
  - match goal with
    | |- exists t, history_of (?k ?h1) = _ =>
        assert (Hk : emits_only (fun _ => True) k)
    end.
    { emits_step; [|repeat emits_step].
      - induction fuel as [|fuel IH]; simpl; repeat emits_step. exact IH.
      - generalize (@None str) as token. generalize (@nil str) as acc.
        induction fuel as [|fuel IH]; intros acc token; simpl;
          repeat emits_step; apply IH. }
    destruct (Hk (h ++ [StartDocumentAnalysis bucket key])) as [t [Ht _]].
    exists t. rewrite Ht, <- app_assoc. reflexivity.
  - exists []. reflexivity.
Qed.

(** C5: for a key whose extension is docx or doc the conversion comes first
    (its temporary directory is the first event); it yields the converter's
    output only when the retrieval and the converter succeed with exit code
    zero, and nothing otherwise; when what it yields is missing or empty, the
    next event is the submission of the same bucket and key to the layout
    analysis; when it is not, that text is the result of the extraction. *)
Theorem office_document_falls_back_to_ocr
    (fuel : nat) (bucket key : str) (h : history) :
  str_in (file_ext lower_nonascii (unquote_plus key)) office_extensions = true ->
  exists (converted : option str) (t1 : history),
    extract_text_from_docx sv bucket key (Some (unquote_plus key)) h
    = Returned converted (h ++ TemporaryDirectory :: t1)
    /\ converted
       = match temporary_directory sv h with
         | Err _ => None
         | Ok _ =>
             match get_object sv (h ++ [TemporaryDirectory]) bucket key with
             | Err _ => None
             | Ok body =>
                 match pandoc sv ((h ++ [TemporaryDirectory])
                                  ++ [GetObject bucket key]) body with
                 | Err _ => None
                 | Ok (returncode, stdout, _) =>
                     if Z.eqb returncode 0 then Some stdout else None
                 end
             end
         end
    /\ (truthy_opt converted = false ->
        exists t,
          history_of (extract_text_from_file lower_nonascii sv fuel bucket key h)
          = (h ++ TemporaryDirectory :: t1)
              ++ StartDocumentAnalysis bucket key :: t)
    /\ (forall text, converted = Some text -> text <> [] ->
        extract_text_from_file lower_nonascii sv fuel bucket key h
        = Returned text (h ++ TemporaryDirectory :: t1)).
Proof.
  intros Hoffice.
  destruct (docx_outcome bucket key (Some (unquote_plus key)) h) as [t1 Hdocx].
  eexists. exists t1. split; [exact Hdocx|]. split; [reflexivity|].
  assert (Hrun :
             extract_text_from_file lower_nonascii sv fuel bucket key h
             = try_except
                 (bind (extract_text_from_docx sv bucket key
                          (Some (unquote_plus key)))
                    (fun content =>
                       if truthy_opt content
                       then ret (match content with Some c => c | None => [] end)
                       else textract_branch sv fuel bucket key))
                 (fun e => ret (exn_str e)) h).
  { rewrite extract_dispatch. unfold classify.
    rewrite (office_not_plain _ Hoffice), Hoffice. reflexivity. }
  split.
  - intros Hfalsy. rewrite Hrun. unfold try_except, bind.
    rewrite Hdocx, Hfalsy.
    destruct (textract_branch_submits fuel bucket key (h ++ TemporaryDirectory :: t1))
      as [t Ht].
    exists t.
    destruct (textract_branch sv fuel bucket key (h ++ TemporaryDirectory :: t1));
      exact Ht.
  - intros text Hsome Hne. rewrite Hrun. unfold try_except, bind.
    rewrite Hdocx, Hsome. destruct text; [contradiction | reflexivity].
Qed.
End Fallback.

Lemma office_document_falls_back_to_ocr_witness :
  exists t1 t,
    extract_text_from_docx sample (lit "docs") (lit "memo.docx")
      (Some (lit "memo.docx")) []
    = Returned None (TemporaryDirectory :: t1)
    /\ history_of (extract_text_from_file keep_nonascii sample 1 (lit "docs")
                     (lit "memo.docx") [])
       = (TemporaryDirectory :: t1)
           ++ StartDocumentAnalysis (lit "docs") (lit "memo.docx") :: t.
Proof.
  destruct (@office_document_falls_back_to_ocr keep_nonascii sample 1
              (lit "docs") (lit "memo.docx") [] eq_refl)
    as [converted [t1 [Hdocx [Hconv [Hfall _]]]]].
  change (converted = None) in Hconv. subst converted.
  destruct (Hfall eq_refl) as [t Ht].
  exists t1, t. split; [exact Hdocx | exact Ht].
Defined.

Section Handler.
Variable lower_nonascii : str -> nat -> str.
Variable sv : services.

(** The extraction turns every exception into its message. *)
Lemma extract_never_raises (fuel : nat) (bucket key : str) (h : history) :
  forall e h', extract_text_from_file lower_nonascii sv fuel bucket key h
               <> Raised e h'.
Proof.
  intros e h'. unfold extract_text_from_file, try_except.
  match goal with |- context [match ?m with _ => _ end] => destruct m end;
    discriminate.
Qed.

(** One record, step by step. *)
Lemma process_record_unfold (fuel : nat) (bucket key : str) (h : history) :
  process_record lower_nonascii sv fuel
    {| bucket_name := bucket; object_key := key |} h
  = match extract_text_from_file lower_nonascii sv fuel bucket key h with
    | Returned text h1 =>
        if negb (truthy text) then Returned tt h1
        else
          let h2 := h1 ++ [UtcNow; HeadObject bucket key; UtcNow] in
          let doc :=
            {| content := text;
               title := title_of (unquote_plus key);
               document_id := key;
               file_type := file_ext lower_nonascii (unquote_plus key);
               upload_date :=
                 utcnow_isoformat sv (h1 ++ [UtcNow; HeadObject bucket key]);
               last_modified :=
                 match head_object sv (h1 ++ [UtcNow]) bucket key with
                 | Ok stamp => stamp
                 | Err _ => utcnow_isoformat sv h1
                 end |} in
          match get_opensearch_client sv h2 with
          | Ok _ =>
              match opensearch_index sv (h2 ++ [GetOpenSearchClient])
                      (lit "enterprise-docs") key doc with
              | Ok _ =>
                  Returned tt
                    (h2 ++ [GetOpenSearchClient;
                            Index (lit "enterprise-docs") key doc true])
              | Err e =>
                  Raised e
                    (h2 ++ [GetOpenSearchClient;
                            Index (lit "enterprise-docs") key doc true])
              end
          | Err e => Raised e (h2 ++ [GetOpenSearchClient])
          end
    | Raised e h1 => Raised e h1
    | OutOfFuel h1 => OutOfFuel h1
    end.
Proof.
  unfold process_record. cbn [bucket_name object_key]. unfold bind at 1.
  destruct (extract_text_from_file lower_nonascii sv fuel bucket key h)
    as [text h1 | e h1 | h1]; try reflexivity.
  destruct (negb (truthy text)); [reflexivity|].
  cbv zeta. unfold bind, try_except, call, ret, raise.
  destruct (head_object sv (h1 ++ [UtcNow]) bucket key) as [stamp|e];
    rewrite <- !app_assoc; cbn [app];
    (destruct (get_opensearch_client sv _) as [[]|e']; [|reflexivity]);
    rewrite <- !app_assoc; cbn [app];
    destruct (opensearch_index sv _ _ key _) as [[]|e'']; reflexivity.
Qed.

Lemma for_records_app (fuel : nat) (before : list s3_record)
    (record : s3_record) (after : list s3_record) (h : history) :
  for_records lower_nonascii sv fuel (before ++ record :: after) h
  = match for_records lower_nonascii sv fuel before h with
    | Returned _ h1 =>
        match process_record lower_nonascii sv fuel record h1 with
        | Returned _ h2 => for_records lower_nonascii sv fuel after h2
        | Raised e h2 => Raised e h2
        | OutOfFuel h2 => OutOfFuel h2
        end
    | Raised e h1 => Raised e h1
    | OutOfFuel h1 => OutOfFuel h1
    end.
Proof.
  revert h. induction before as [|r before IH]; intros h.
  - reflexivity.
  - cbn [app for_records]. unfold bind.
    destruct (process_record lower_nonascii sv fuel r h); try reflexivity.
    apply IH.
Qed.

(** C8: when the extraction has produced a text and the metadata request
    raises, the record goes on: the clock value read just before the request
    becomes [last_modified], the document is assembled and handed to the
    index, and how the record ends depends on the index alone. *)
Theorem metadata_failure_is_absorbed
    (fuel : nat) (bucket key text : str) (h h1 : history) (e : exn) :
  extract_text_from_file lower_nonascii sv fuel bucket key h = Returned text h1 ->
  text <> [] ->
  head_object sv (h1 ++ [UtcNow]) bucket key = Err e ->
  let h2 := h1 ++ [UtcNow; HeadObject bucket key; UtcNow] in
  let doc :=
    {| content := text;
       title := title_of (unquote_plus key);
       document_id := key;
       file_type := file_ext lower_nonascii (unquote_plus key);
       upload_date := utcnow_isoformat sv (h1 ++ [UtcNow; HeadObject bucket key]);
       last_modified := utcnow_isoformat sv h1 |} in
  process_record lower_nonascii sv fuel
    {| bucket_name := bucket; object_key := key |} h
  = match get_opensearch_client sv h2 with
    | Ok _ =>
        match opensearch_index sv (h2 ++ [GetOpenSearchClient])
                (lit "enterprise-docs") key doc with
        | Ok _ =>
            Returned tt
              (h2 ++ [GetOpenSearchClient;
                      Index (lit "enterprise-docs") key doc true])
        | Err e' =>
            Raised e'
              (h2 ++ [GetOpenSearchClient;
                      Index (lit "enterprise-docs") key doc true])
        end
    | Err e' => Raised e' (h2 ++ [GetOpenSearchClient])
    end.
Proof.
  intros Hx Hne Hhead. rewrite process_record_unfold, Hx.
  destruct text; [contradiction|]. cbn [truthy negb]. cbv zeta.
  rewrite Hhead. reflexivity.
Qed.

(** C2, as the code has it: an exception that leaves the processing of a
    record, as the one of the index step does when the inner handler raises
    it again, is caught at the boundary of the whole batch and not of the
    record: the handler answers 500 with its message, and the history ends
    where the exception was raised, after everything the earlier records
    did: the records after it are never processed. *)
Theorem commit_error_stops_the_batch
    (fuel : nat) (before after : list s3_record) (bucket key : str)
    (h h1 h2 : history) (e : exn) :
  for_records lower_nonascii sv fuel before h = Returned tt h1 ->
  process_record lower_nonascii sv fuel
    {| bucket_name := bucket; object_key := key |} h1 = Raised e h2 ->
  lambda_handler lower_nonascii sv fuel
    (before ++ {| bucket_name := bucket; object_key := key |} :: after) h
  = Returned {| statusCode := 500;
                body := json_dumps (lit "Error processing document: "
                                    ++ exn_str e) |} h2
  /\ exists t, h2 = h1 ++ t.
Proof.
  intros Hbefore Hrec. split.
  - unfold lambda_handler, try_except, bind.
    rewrite for_records_app, Hbefore, Hrec. reflexivity.
  - destruct (process_record_events lower_nonascii sv bucket key fuel h1)
      as [t [Ht _]].
    rewrite Hrec in Ht. cbn [history_of] in Ht. now exists t.
Qed.
End Handler.

Lemma metadata_failure_is_absorbed_witness :
  process_record keep_nonascii no_metadata 0 (on "docs" "reports/q1.txt") []
  = Returned tt
      [ GetObject (lit "docs") (lit "reports/q1.txt");
        UtcNow;
        HeadObject (lit "docs") (lit "reports/q1.txt");
        UtcNow;
        GetOpenSearchClient;
        Index (lit "enterprise-docs") (lit "reports/q1.txt")
          {| content := lit "Revenue grew 10%.";
             title := lit "q1.txt";
             document_id := lit "reports/q1.txt";
             file_type := lit "txt";
             upload_date := lit "2024-05-01T09:00:00.3";
             last_modified := lit "2024-05-01T09:00:00.1" |}
          true ].
Proof.
  apply (@metadata_failure_is_absorbed keep_nonascii no_metadata 0
           (lit "docs") (lit "reports/q1.txt") (lit "Revenue grew 10%.")
           [] [GetObject (lit "docs") (lit "reports/q1.txt")] AccessDenied).
  - reflexivity.
  - discriminate.
  - reflexivity.
Defined.

Lemma commit_error_stops_the_batch_witness :
  exists h2,
    lambda_handler keep_nonascii flaky_index 0
      [on "docs" "a.txt"; on "docs" "b.txt"; on "docs" "c.txt"] []
    = Returned {| statusCode := 500;
                  body := json_dumps (lit "Error processing document: "
                                      ++ exn_str IndexRejected) |} h2
    /\ existsb (mentions_key (lit "c.txt")) h2 = false.
Proof.
  eexists. split.
  - refine (proj1 (@commit_error_stops_the_batch keep_nonascii flaky_index 0
                     [on "docs" "a.txt"] [on "docs" "c.txt"]
                     (lit "docs") (lit "b.txt") [] _ _ IndexRejected _ _)).
    + vm_compute. reflexivity.
    + vm_compute. reflexivity.
  - reflexivity.
Defined.

(** C2, counterexample: a batch of three records in which the commit of the
    second is rejected.  The first document is committed, the handler
    answers 500, and no call at all is made for the third record. *)
Lemma third_record_is_never_attempted :
  let out := lambda_handler keep_nonascii flaky_index 0
               [on "docs" "a.txt"; on "docs" "b.txt"; on "docs" "c.txt"] [] in
  out = Returned {| statusCode := 500;
                    body := json_dumps (lit "Error processing document: "
                                        ++ exn_str IndexRejected) |}
          (history_of out)
  /\ map document_id (indexed_documents (history_of out))
     = [lit "a.txt"; lit "b.txt"]
  /\ existsb (mentions_key (lit "c.txt")) (history_of out) = false.
Proof. repeat split. Qed.

Section Classification.
Variable lower_nonascii : str -> nat -> str.
Variable sv : services.

(** C4, as the code has it: the extension is the lowercased text after the
    last dot of the decoded key, or the whole decoded key when it has no dot;
    whenever it is none of the known extensions the function returns the
    message "Unsupported file type: <extension>" at once, with no call to
    storage, converter or layout analysis. *)
Theorem unknown_extension_is_unsupported
    (fuel : nat) (bucket key : str) (h : history) :
  let decoded := unquote_plus key in
  let ext := file_ext lower_nonascii decoded in
  (forall p s, decoded = p ++ ch_dot :: s -> existsb (N.eqb ch_dot) s = false ->
               ext = lower lower_nonascii s)
  /\ (existsb (N.eqb ch_dot) decoded = false -> ext = lower lower_nonascii decoded)
  /\ (classify ext = Unsupported ->
      extract_text_from_file lower_nonascii sv fuel bucket key h
      = Returned (lit "Unsupported file type: " ++ ext) h).
Proof.
  intros decoded ext. repeat split.
  - intros p s Hd Hs. unfold ext, file_ext. rewrite Hd.
    now rewrite last_item_after_last.
  - intros Hd. unfold ext, file_ext. now rewrite last_item_no_separator.
  - intros Hc. rewrite extract_dispatch. fold decoded. fold ext. rewrite Hc.
    reflexivity.
Qed.
End Classification.

Lemma unknown_extension_is_unsupported_witness :
  file_ext keep_nonascii (unquote_plus (lit "tools/setup.EXE"))
  = lower keep_nonascii (lit "EXE")
  /\ file_ext keep_nonascii (unquote_plus (lit "README"))
     = lower keep_nonascii (lit "README")
  /\ extract_text_from_file keep_nonascii sample 0 (lit "docs")
       (lit "tools/setup.EXE") []
     = Returned (lit "Unsupported file type: exe") []
  /\ extract_text_from_file keep_nonascii sample 0 (lit "docs") (lit "README") []
     = Returned (lit "Unsupported file type: readme") [].
Proof.
  destruct (unknown_extension_is_unsupported keep_nonascii sample 0 (lit "docs")
              (lit "tools/setup.EXE") []) as [Hafter [_ Hexe]].
  destruct (unknown_extension_is_unsupported keep_nonascii sample 0 (lit "docs")
              (lit "README") []) as [_ [Hwhole Hreadme]].
  split; [|split; [|split]].
  - apply (Hafter (lit "tools/setup") (lit "EXE")); reflexivity.
  - apply Hwhole. reflexivity.
  - apply Hexe. reflexivity.
  - apply Hreadme. reflexivity.
Defined.

(** C4, counterexample: the key "txt" has no dot, hence no suffix, yet it is
    classified as plain text and its object is read and returned. *)
Lemma dotless_key_is_read_as_plain_text :
  existsb (N.eqb ch_dot) (unquote_plus (lit "txt")) = false
  /\ classify (file_ext keep_nonascii (unquote_plus (lit "txt"))) = PlainText
  /\ extract_text_from_file keep_nonascii sample 0 (lit "docs") (lit "txt") []
     = Returned (lit "plain words") [GetObject (lit "docs") (lit "txt")].
Proof. repeat split. Qed.

(** C1, at three failing records: an unsupported type, a layout job that
    ends FAILED and a missing object.  Each failure message is a non-empty
    string, passes the emptiness test of the handler and is committed to the
    index as the content of a document. *)
Lemma failure_messages_are_indexed :
  let out := lambda_handler keep_nonascii sample 1
               [on "docs" "setup.exe"; on "docs" "scan.pdf";
                on "docs" "missing.txt"] [] in
  out = Returned {| statusCode := 200;
                    body := json_dumps (lit "Document processing complete") |}
          (history_of out)
  /\ map (fun d => (document_id d, content d))
       (indexed_documents (history_of out))
     = [ (lit "setup.exe", lit "Unsupported file type: exe");
         (lit "scan.pdf", lit "Error processing document: INVALID_IMAGE_TYPE");
         (lit "missing.txt", exn_str NoSuchKey) ].
Proof. split; reflexivity. Qed.

End IngestionFacts.

(** * Further properties of the ingestion lambda *)

Module IngestionExtras.
Import DocumentIngestion.
Import IngestionFacts.

(** X4: the title is what follows the last slash of the decoded key, or the
    whole decoded key when it has none; it never contains a slash. *)
Theorem title_is_last_segment_without_slash (decoded_key : str) :
  existsb (N.eqb ch_slash) (title_of decoded_key) = false
  /\ (decoded_key = title_of decoded_key
      \/ exists p, decoded_key = p ++ ch_slash :: title_of decoded_key).
Proof.
  unfold title_of.
  destruct (last_separator ch_slash decoded_key) as [Hno | [p [t [Hd Ht]]]].
  - rewrite (last_item_no_separator _ _ Hno). split; [exact Hno | now left].
  - rewrite Hd, (last_item_after_last _ _ _ Ht).
    split; [exact Ht | right; now exists p].
Qed.

Section Extension.
Variable lower_nonascii : str -> nat -> str.

Lemma lower_from_ascii (whole s : str) :
  forall i, forallb is_ascii s = true ->
    lower_from lower_nonascii whole i s = map ascii_lower s.
Proof.
  induction s as [|c s IH]; intros i Hs; [reflexivity|].
  cbn [forallb] in Hs. apply andb_true_iff in Hs. destruct Hs as [Hc Hs].
  cbn [lower_from map]. unfold is_ascii in Hc. rewrite Hc, (IH _ Hs).
  reflexivity.
Qed.

Lemma forallb_app_r (A : Type) (f : A -> bool) (l1 l2 : list A) :
  forallb f (l1 ++ l2) = true -> forallb f l2 = true.
Proof. rewrite forallb_app. intros H. now apply andb_true_iff in H. Qed.

Lemma ascii_lower_dot (c : codepoint) :
  N.eqb ch_dot (ascii_lower c) = N.eqb ch_dot c.
Proof.
  unfold ascii_lower, ch_dot.
  destruct ((65 <=? c)%N && (c <=? 90)%N) eqn:Hup; [|reflexivity].
  apply andb_true_iff in Hup. destruct Hup as [H1 H2].
  apply N.leb_le in H1. apply N.leb_le in H2.
  destruct (N.eqb_spec 46 (c + 32)); destruct (N.eqb_spec 46 c); try reflexivity; lia.
Qed.

Lemma ascii_lower_not_upper (c : codepoint) : is_upper (ascii_lower c) = false.
Proof.
  unfold ascii_lower, is_upper.
  destruct ((65 <=? c)%N && (c <=? 90)%N) eqn:Hup; [|exact Hup].
  apply andb_true_iff in Hup. destruct Hup as [H1 H2].
  apply N.leb_le in H1. apply andb_false_iff. right. apply N.leb_gt. lia.
Qed.

(** X5: for a decoded key of ASCII characters the extension does not depend on
    the Unicode tables: it is the text after the last dot (the whole key when
    there is none) with its capital letters lowered, and it contains neither
    a dot nor a capital letter. *)
Theorem file_ext_of_ascii_key (decoded_key : str) :
  forallb is_ascii decoded_key = true ->
  file_ext lower_nonascii decoded_key
  = map ascii_lower (last_item (split_on ch_dot decoded_key))
  /\ existsb (N.eqb ch_dot) (file_ext lower_nonascii decoded_key) = false
  /\ forallb (fun c => negb (is_upper c)) (file_ext lower_nonascii decoded_key)
     = true.
Proof.
  intros Hascii. unfold file_ext, lower.
  assert (Hlast : existsb (N.eqb ch_dot) (last_item (split_on ch_dot decoded_key))
                  = false
                  /\ forallb is_ascii (last_item (split_on ch_dot decoded_key))
                     = true).
  { destruct (last_separator ch_dot decoded_key) as [Hno | [p [t [Hd Ht]]]].
    - rewrite (last_item_no_separator _ _ Hno). now split.
    - rewrite Hd, (last_item_after_last _ _ _ Ht). split; [exact Ht|].
      rewrite Hd in Hascii. apply forallb_app_r in Hascii.
      cbn [forallb] in Hascii. now apply andb_true_iff in Hascii. }
  destruct Hlast as [Hdot Hasc].
  rewrite (lower_from_ascii _ _ 0 Hasc).
  split; [reflexivity|]. split.
  - clear Hasc. induction (last_item (split_on ch_dot decoded_key)) as [|c s IH];
      [reflexivity|].
    cbn [existsb map] in *. apply orb_false_iff in Hdot. destruct Hdot as [Hc Hs].
    now rewrite ascii_lower_dot, Hc, (IH Hs).
  - clear. induction (last_item (split_on ch_dot decoded_key)) as [|c s IH];
      [reflexivity|].
    cbn [forallb map]. now rewrite ascii_lower_not_upper, IH.
Qed.
End Extension.

Lemma file_ext_of_ascii_key_witness :
  file_ext keep_nonascii (lit "archive/Report.Final.PDF") = lit "pdf".
Proof.
  apply (proj1 (@file_ext_of_ascii_key keep_nonascii
                  (lit "archive/Report.Final.PDF") eq_refl)).
Defined.

Section Extraction.
Variable lower_nonascii : str -> nat -> str.
Variable sv : services.

Lemma poll_strategy (fuel : nat) (job_id : str) :
  emits_only strategy_event (poll sv fuel job_id).
Proof. induction fuel as [|fuel IH]; simpl; repeat emits_step. exact IH. Qed.

Lemma get_pages_strategy (fuel : nat) (job_id : str) :
  forall token acc, emits_only strategy_event (get_pages sv fuel job_id token acc).
Proof.
  induction fuel as [|fuel IH]; intros token acc; simpl; repeat emits_step;
    apply IH.
Qed.

Lemma textract_branch_strategy (fuel : nat) (bucket key : str) :
  emits_only strategy_event (textract_branch sv fuel bucket key).
Proof.
  unfold textract_branch. emits_step; [emits_step|].
  emits_step; [apply poll_strategy|].
  repeat emits_step. apply get_pages_strategy.
Qed.

Lemma extract_strategy (fuel : nat) (bucket key : str) :
  emits_only strategy_event
    (extract_text_from_file lower_nonascii sv fuel bucket key).
Proof.
  unfold extract_text_from_file, textract_or_unsupported.
  emits_step; [|emits_step].
  destruct (str_in _ plain_extensions).
  - repeat emits_step.
  - destruct (str_in _ office_extensions).
    + emits_step; [unfold extract_text_from_docx; repeat emits_step|].
      repeat emits_step; apply textract_branch_strategy.
    + repeat emits_step; apply textract_branch_strategy.
Qed.

(** X7: for a txt, json or md key the extraction is one retrieval of the raw
    key; its result is the body decoded as UTF-8, the decoder's message when
    the body is not valid UTF-8, or the message of the exception the
    retrieval raised. *)
Theorem plain_text_is_read_and_decoded
    (fuel : nat) (bucket key : str) (h : history) :
  str_in (file_ext lower_nonascii (unquote_plus key)) plain_extensions = true ->
  extract_text_from_file lower_nonascii sv fuel bucket key h
  = Returned
      match get_object sv h bucket key with
      | Ok body =>
          match decode_strict body with
          | inl text => text
          | inr message => message
          end
      | Err e => exn_str e
      end
      (h ++ [GetObject bucket key]).
Proof.
  intros Hplain. rewrite extract_dispatch. unfold classify. rewrite Hplain.
  unfold by_category, try_except, bind, call.
  destruct (get_object sv h bucket key) as [body|e]; [|reflexivity].
  destruct (decode_strict body); reflexivity.
Qed.

(** X8: an object with a plain-text extension and an empty body is skipped:
    after its retrieval the record ends normally, with no clock read, no
    metadata request and no index call. *)
Theorem empty_object_is_skipped
    (fuel : nat) (bucket key : str) (h : history) :
  str_in (file_ext lower_nonascii (unquote_plus key)) plain_extensions = true ->
  get_object sv h bucket key = Ok [] ->
  process_record lower_nonascii sv fuel
    {| bucket_name := bucket; object_key := key |} h
  = Returned tt (h ++ [GetObject bucket key]).
Proof.
  intros Hplain Hbody.
  rewrite process_record_unfold, extract_dispatch. unfold classify.
  rewrite Hplain. unfold by_category, try_except, bind, call.
  rewrite Hbody. reflexivity.
Qed.
End Extraction.

Lemma plain_text_is_read_and_decoded_witness :
  extract_text_from_file keep_nonascii more 0 (lit "docs") (lit "broken.txt") []
  = Returned
      (lit "'utf-8' codec can't decode byte 0xff in position 2: invalid start byte")
      [GetObject (lit "docs") (lit "broken.txt")].
Proof.
  apply (@plain_text_is_read_and_decoded keep_nonascii more 0 (lit "docs")
           (lit "broken.txt") [] eq_refl).
Defined.

Lemma empty_object_is_skipped_witness :
  process_record keep_nonascii more 0 (on "docs" "empty.txt") []
  = Returned tt [GetObject (lit "docs") (lit "empty.txt")].
Proof.
  apply (@empty_object_is_skipped keep_nonascii more 0 (lit "docs")
           (lit "empty.txt") [] eq_refl eq_refl).
Defined.

Section LayoutAnalysis.
Variable sv : services.

(** X9: when the job ends FAILED the strategy requests no result page: after
    the poll that reported the failure it returns "Error processing
    document: " followed by the status message of the service, or by
    "Unknown error" when the answer carries none. *)
Theorem failed_job_returns_status_message
    (fuel n : nat) (bucket key job_id : str) (h : history) (r : analysis) :
  start_document_analysis sv h bucket key = Ok job_id ->
  (forall k, k < n ->
     reports_running sv (h ++ [StartDocumentAnalysis bucket key]) job_id k) ->
  get_document_analysis sv
    ((h ++ [StartDocumentAnalysis bucket key]) ++ poll_events job_id n)
    job_id None = Ok r ->
  JobStatus r = lit "FAILED" ->
  n < fuel ->
  textract_branch sv fuel bucket key h
  = Returned
      (lit "Error processing document: "
       ++ match StatusMessage r with
          | Some message => message
          | None => lit "Unknown error"
          end)
      ((h ++ [StartDocumentAnalysis bucket key])
       ++ poll_events job_id n ++ [GetDocumentAnalysis job_id None]).
Proof.
  intros Hstart Hrun Hr Hfailed Hfuel.
  unfold textract_branch, bind at 1. unfold call. rewrite Hstart.
  unfold bind at 1.
  rewrite (@poll_while_running sv job_id n _ fuel Hrun) by lia.
  destruct (fuel - n) as [|f] eqn:Hf; [lia|].
  rewrite poll_unfold, Hr, Hfailed.
  change (str_in (lit "FAILED") terminal_statuses) with true. cbv iota.
  rewrite Hfailed.
  change (str_eqb (lit "FAILED") (lit "SUCCEEDED")) with false. cbv iota.
  unfold ret. now rewrite <- !app_assoc.
Qed.

Lemma get_pages_empty_token (job_id : str) (p : analysis) (h : history) :
  (forall t, get_document_analysis sv (h ++ t) job_id None = Ok p) ->
  NextToken p = Some [] ->
  forall (fuel : nat) (token : option str) (acc : list str) (t : history),
    truthy_opt token = false ->
    get_pages sv fuel job_id token acc (h ++ t)
    = OutOfFuel (h ++ t ++ repeat (GetDocumentAnalysis job_id None) fuel).
Proof.
  intros Hserve Hnext.
  induction fuel as [|fuel IH]; intros token acc t Htok.
  - simpl. now rewrite app_nil_r.
  - rewrite get_pages_unfold. cbv zeta. rewrite Htok, Hserve, Hnext.
    rewrite <- app_assoc.
    rewrite (IH (Some []) _ (t ++ [GetDocumentAnalysis job_id None]) eq_refl).
    rewrite <- app_assoc. reflexivity.
Qed.

(** X11: a page token that is present but empty is taken for no token: when the
    service answers the token-less request with a page whose token is the
    empty string, the page loop asks for that same first page again and
    again and never returns. *)
Theorem empty_page_token_refetches_first_page
    (job_id : str) (p : analysis) (h : history) :
  (forall t, get_document_analysis sv (h ++ t) job_id None = Ok p) ->
  NextToken p = Some [] ->
  forall fuel,
    get_pages sv fuel job_id None [] h
    = OutOfFuel (h ++ repeat (GetDocumentAnalysis job_id None) fuel).
Proof.
  intros Hserve Hnext fuel.
  pose proof (@get_pages_empty_token job_id p h Hserve Hnext fuel None [] []
                eq_refl) as Hrun.
  rewrite app_nil_r in Hrun. exact Hrun.
Qed.

(** X10: the page loop keeps nothing of an interrupted retrieval: when a page
    request raises after some pages were fetched, the loop ends with that
    exception, and the lines gathered from the earlier pages are lost with
    it. *)
Theorem page_error_discards_earlier_pages
    (job_id : str) (pages : list analysis) (e : exn) (h : history) :
  forall (token : option str) (fuel : nat) (acc : list str) (t : history),
    serves_then_raises sv h job_id token pages e ->
    (if truthy_opt token then token else None) = token ->
    length pages < fuel ->
    get_pages sv fuel job_id token acc (h ++ t)
    = Raised e
        (h ++ t ++ page_requests job_id token pages
           ++ [GetDocumentAnalysis job_id (token_after token pages)]).
Proof.
  induction pages as [|p rest IH]; intros token fuel acc t Hserve Htok Hlen.
  - destruct fuel as [|fuel]; [simpl in Hlen; lia|].
    rewrite get_pages_unfold. cbv zeta. rewrite Htok.
    cbn [serves_then_raises] in Hserve. rewrite Hserve.
    cbn [page_requests token_after app]. now rewrite <- app_assoc.
  - destruct fuel as [|fuel]; [simpl in Hlen; lia|].
    destruct Hserve as [Hp [tk [Hnext [Hne Hrest]]]].
    rewrite get_pages_unfold. cbv zeta. rewrite Htok, Hp, Hnext.
    rewrite <- app_assoc.
    rewrite (IH (Some tk) fuel _ _ Hrest).
    + cbn [page_requests token_after]. rewrite Hnext.
      now rewrite <- !app_assoc.
    + destruct tk; [contradiction | reflexivity].
    + simpl in Hlen. lia.
Qed.
End LayoutAnalysis.

Lemma failed_job_returns_status_message_witness :
  textract_branch sample 1 (lit "docs") (lit "scan.pdf") []
  = Returned (lit "Error processing document: INVALID_IMAGE_TYPE")
      [ StartDocumentAnalysis (lit "docs") (lit "scan.pdf");
        GetDocumentAnalysis (lit "job-1") None ].
Proof.
  apply (@failed_job_returns_status_message sample 1 0 (lit "docs")
           (lit "scan.pdf") (lit "job-1") []
           {| JobStatus := lit "FAILED";
              StatusMessage := Some (lit "INVALID_IMAGE_TYPE");
              Blocks := []; NextToken := None |}).
  - reflexivity.
  - intros k Hk. lia.
  - reflexivity.
  - reflexivity.
  - lia.
Defined.

Lemma page_error_discards_earlier_pages_witness :
  get_pages interrupted 5 (lit "job-1") None [] []
  = Raised Throttled
      [ GetDocumentAnalysis (lit "job-1") None;
        GetDocumentAnalysis (lit "job-1") (Some (lit "p2"));
        GetDocumentAnalysis (lit "job-1") (Some (lit "p3")) ].
Proof.
  refine (@page_error_discards_earlier_pages interrupted (lit "job-1")
            [page_1; page_2] Throttled [] None 5 [] [] _ eq_refl _).
  - split; [intros t; reflexivity|].
    exists (lit "p2"). split; [reflexivity|]. split; [discriminate|].
    split; [intros t; reflexivity|].
    exists (lit "p3"). split; [reflexivity|]. split; [discriminate|].
    intros t. reflexivity.
  - simpl. lia.
Defined.

Lemma empty_page_token_refetches_first_page_witness :
  get_pages empty_tokens 4 (lit "job-1") None [] []
  = OutOfFuel (repeat (GetDocumentAnalysis (lit "job-1") None) 4).
Proof.
  apply (@empty_page_token_refetches_first_page empty_tokens (lit "job-1")
           empty_token_page []).
  - intros t. reflexivity.
  - reflexivity.
Defined.

Section Batches.
Variable lower_nonascii : str -> nat -> str.
Variable sv : services.

Lemma app_assoc3 (A : Type) (h t a b : list A) :
  ((h ++ t) ++ a) ++ b = h ++ (t ++ a ++ b).
Proof. now rewrite <- !app_assoc. Qed.

(** The events of one record, for a property that holds of every call other
    than a commit and of every commit the record can make. *)
Lemma process_record_emits (P : event -> Prop) (fuel : nat) (bucket key : str) :
  (forall ev, strategy_event ev -> P ev) ->
  P UtcNow -> P (HeadObject bucket key) -> P GetOpenSearchClient ->
  (forall doc h2,
      content doc <> [] -> document_id doc = key ->
      get_opensearch_client sv h2 = Ok tt ->
      P (Index (lit "enterprise-docs") key doc true)) ->
  emits_only P
    (process_record lower_nonascii sv fuel
       {| bucket_name := bucket; object_key := key |}).
Proof.
  intros Hstrategy Hnow Hhead Hclient Hindex h.
  rewrite process_record_unfold.
  destruct (extract_strategy lower_nonascii sv fuel bucket key h) as [t [Ht Pt]].
  assert (Pt' : Forall P t) by (eapply Forall_impl; [apply Hstrategy | exact Pt]).
  destruct (extract_text_from_file lower_nonascii sv fuel bucket key h)
    as [text h1 | e h1 | h1]; cbn [history_of] in Ht; subst h1;
    try (exists t; split; [reflexivity | exact Pt']).
  destruct text as [|c text]; cbn [truthy negb].
  - exists t. split; [reflexivity | exact Pt'].
  - cbv zeta.
    destruct (get_opensearch_client sv _) as [[]|e] eqn:Hc.
    + match goal with
      | |- context [opensearch_index sv ?hh ?i ?k ?d] =>
          assert (Hdoc : P (Index i k d true))
            by (eapply Hindex; [discriminate | reflexivity | exact Hc]);
          destruct (opensearch_index sv hh i k d) as [[]|e']
      end;
        (eexists; split;
         [cbn [history_of]; apply app_assoc3
         | apply Forall_app; split; [exact Pt'|]; repeat constructor; assumption]).
    + eexists. split; [cbn [history_of]; apply app_assoc3|].
      apply Forall_app; split; [exact Pt'|]. repeat constructor; assumption.
Qed.

Lemma for_records_emits (P : event -> Prop) (fuel : nat)
    (records : list s3_record) :
  (forall record, In record records ->
     emits_only P (process_record lower_nonascii sv fuel record)) ->
  emits_only P (for_records lower_nonascii sv fuel records).
Proof.
  induction records as [|record rest IH]; intros Hrec; cbn [for_records].
  - apply emits_only_ret.
  - apply emits_only_bind; [apply Hrec; now left|].
    intros _. apply IH. intros r Hr. apply Hrec. now right.
Qed.

Lemma lambda_handler_emits (P : event -> Prop) (fuel : nat)
    (records : list s3_record) :
  (forall record, In record records ->
     emits_only P (process_record lower_nonascii sv fuel record)) ->
  emits_only P (lambda_handler lower_nonascii sv fuel records).
Proof.
  intros Hrec. unfold lambda_handler.
  apply emits_only_try_except.
  - apply emits_only_bind; [now apply for_records_emits|].
    intros _. apply emits_only_ret.
  - intros e. apply emits_only_ret.
Qed.

(** X12: whatever the collaborators answer, every commit the handler makes for a
    batch goes to the index "enterprise-docs" with a synchronous refresh, is
    addressed by the raw key of one of the records of the batch, carries a
    document with that same identifier, and never carries an empty content. *)
Theorem commits_are_keyed_by_record_and_never_empty
    (fuel : nat) (records : list s3_record) :
  emits_only (index_request_ok records)
    (lambda_handler lower_nonascii sv fuel records).
Proof.
  apply lambda_handler_emits. intros [bucket key] Hin.
  apply process_record_emits; try exact I.
  - intros ev Hev. destruct ev; try exact I. destruct Hev.
  - intros doc h2 Hcontent Hid _. cbn [index_request_ok].
    repeat split; try assumption.
    apply in_map_iff. exists {| bucket_name := bucket; object_key := key |}.
    split; [reflexivity | exact Hin].
Qed.

(** X13: when the index client cannot be built, no document is ever handed to
    the index, whatever the batch. *)
Theorem nothing_is_committed_without_index_client
    (fuel : nat) (records : list s3_record) :
  (forall h, exists e, get_opensearch_client sv h = Err e) ->
  emits_only not_index (lambda_handler lower_nonascii sv fuel records).
Proof.
  intros Hclient. apply lambda_handler_emits. intros [bucket key] _.
  apply process_record_emits; try exact I.
  - intros ev Hev. destruct ev; try exact I. destruct Hev.
  - intros doc h2 _ _ Hok. destruct (Hclient h2) as [e He]. congruence.
Qed.

Lemma for_records_append (fuel : nat) (before after : list s3_record)
    (h : history) :
  for_records lower_nonascii sv fuel (before ++ after) h
  = match for_records lower_nonascii sv fuel before h with
    | Returned _ h1 => for_records lower_nonascii sv fuel after h1
    | Raised e h1 => Raised e h1
    | OutOfFuel h1 => OutOfFuel h1
    end.
Proof.
  revert h. induction before as [|r before IH]; intros h; [reflexivity|].
  cbn [app for_records]. unfold bind.
  destruct (process_record lower_nonascii sv fuel r h); try reflexivity.
  apply IH.
Qed.

(** X14: records are processed strictly in order and independently of the size
    of the batch: when a first part of a batch has been processed without an
    error, the handler goes on exactly as if it had been called on the rest
    of the batch at that point. *)
Theorem handler_continues_after_processed_prefix
    (fuel : nat) (before after : list s3_record) (h h1 : history) :
  for_records lower_nonascii sv fuel before h = Returned tt h1 ->
  lambda_handler lower_nonascii sv fuel (before ++ after) h
  = lambda_handler lower_nonascii sv fuel after h1.
Proof.
  intros Hbefore. unfold lambda_handler, try_except, bind.
  rewrite for_records_append, Hbefore. reflexivity.
Qed.

(** X15: a record whose extraction yields a text, whose metadata request
    succeeds and whose commit is accepted ends with exactly one commit:
    the document carries the extracted text, the object's own timestamp as
    [last_modified], and the clock value read after the metadata request as
    [upload_date]. *)
Theorem record_is_committed_with_object_timestamp
    (fuel : nat) (bucket key text stamp : str) (h h1 : history) :
  extract_text_from_file lower_nonascii sv fuel bucket key h = Returned text h1 ->
  text <> [] ->
  head_object sv (h1 ++ [UtcNow]) bucket key = Ok stamp ->
  let h2 := h1 ++ [UtcNow; HeadObject bucket key; UtcNow] in
  let doc :=
    {| content := text;
       title := title_of (unquote_plus key);
       document_id := key;
       file_type := file_ext lower_nonascii (unquote_plus key);
       upload_date := utcnow_isoformat sv (h1 ++ [UtcNow; HeadObject bucket key]);
       last_modified := stamp |} in
  get_opensearch_client sv h2 = Ok tt ->
  opensearch_index sv (h2 ++ [GetOpenSearchClient]) (lit "enterprise-docs")
    key doc = Ok tt ->
  process_record lower_nonascii sv fuel
    {| bucket_name := bucket; object_key := key |} h
  = Returned tt
      (h2 ++ [GetOpenSearchClient; Index (lit "enterprise-docs") key doc true]).
Proof.
  intros Hx Hne Hhead h2 doc Hclient Hindex.
  rewrite process_record_unfold, Hx.
  destruct text; [contradiction|]. cbn [truthy negb]. cbv zeta.
  rewrite Hhead. fold h2. rewrite Hclient. fold doc. rewrite Hindex.
  reflexivity.
Qed.

Lemma for_records_never_raises_when_index_accepts (fuel : nat) :
  (forall h, get_opensearch_client sv h = Ok tt) ->
  (forall h index id doc, opensearch_index sv h index id doc = Ok tt) ->
  forall records h e h',
    for_records lower_nonascii sv fuel records h <> Raised e h'.
Proof.
  intros Hclient Hindex records.
  induction records as [|[bucket key] rest IH]; intros h e h'; cbn [for_records].
  - discriminate.
  - unfold bind. rewrite process_record_unfold.
    pose proof (@extract_never_raises lower_nonascii sv fuel bucket key h) as Hx.
    destruct (extract_text_from_file lower_nonascii sv fuel bucket key h)
      as [text h1 | ex h1 | h1].
    + destruct (negb (truthy text)); [apply IH|].
      cbv zeta. rewrite Hclient, Hindex. apply IH.
    + exfalso. exact (Hx ex h1 eq_refl).
    + discriminate.
Qed.

End Batches.

Lemma nothing_is_committed_without_index_client_witness :
  exists t,
    history_of (lambda_handler keep_nonascii unconfigured 0
                  [on "docs" "empty.txt"; on "docs" "a.txt"; on "docs" "b.txt"] [])
    = [] ++ t
    /\ Forall not_index t.
Proof.
  apply (@nothing_is_committed_without_index_client keep_nonascii unconfigured 0
           [on "docs" "empty.txt"; on "docs" "a.txt"; on "docs" "b.txt"]).
  intros h. exists DomainMissing. reflexivity.
Defined.

Lemma record_is_committed_with_object_timestamp_witness :
  process_record keep_nonascii sample 0 (on "docs" "reports/q1.txt") []
  = Returned tt
      [ GetObject (lit "docs") (lit "reports/q1.txt");
        UtcNow;
        HeadObject (lit "docs") (lit "reports/q1.txt");
        UtcNow;
        GetOpenSearchClient;
        Index (lit "enterprise-docs") (lit "reports/q1.txt")
          {| content := lit "Revenue grew 10%.";
             title := lit "q1.txt";
             document_id := lit "reports/q1.txt";
             file_type := lit "txt";
             upload_date := lit "2024-05-01T09:00:00.3";
             last_modified := lit "2024-04-30T18:30:00+00:00" |}
          true ].
Proof.
  apply (@record_is_committed_with_object_timestamp keep_nonascii sample 0
           (lit "docs") (lit "reports/q1.txt") (lit "Revenue grew 10%.")
           (lit "2024-04-30T18:30:00+00:00")
           [] [GetObject (lit "docs") (lit "reports/q1.txt")]).
  - reflexivity.
  - discriminate.
  - reflexivity.
  - reflexivity.
  - reflexivity.
Defined.

Lemma handler_continues_after_processed_prefix_witness :
  lambda_handler keep_nonascii sample 0
    ([on "docs" "a.txt"] ++ [on "docs" "c.txt"]) []
  = lambda_handler keep_nonascii sample 0 [on "docs" "c.txt"]
      (history_of (for_records keep_nonascii sample 0 [on "docs" "a.txt"] [])).
Proof.
  apply (@handler_continues_after_processed_prefix keep_nonascii sample 0
           [on "docs" "a.txt"] [on "docs" "c.txt"] []).
  reflexivity.
Defined.

Section Clients.
Variable lower_nonascii : str -> nat -> str.
Variable sv : services.
Variable boto3_client : history -> str -> reply unit.

(** The record of the model without clients is the extraction followed by
    the commit of what it yields. *)
Lemma process_record_commit (fuel : nat) (bucket key : str) (h : history) :
  process_record lower_nonascii sv fuel
    {| bucket_name := bucket; object_key := key |} h
  = bind (extract_text_from_file lower_nonascii sv fuel bucket key)
      (fun content =>
         if negb (truthy content) then ret tt
         else commit_record lower_nonascii sv bucket key content) h.
Proof. reflexivity. Qed.

Lemma build_client_emits (P : event -> Prop) (name : str) :
  emits_only P (build_client boto3_client name).
Proof.
  intros h. exists []. rewrite app_nil_r. unfold build_client.
  destruct (boto3_client h name); split; (reflexivity || constructor).
Qed.

Lemma extraction_raise_is_client (fuel : nat) (bucket key : str)
    (h h' : history) (e : exn) :
  extract_text_from_file_with_clients lower_nonascii sv boto3_client
    fuel bucket key h = Raised e h' ->
  h' = h
  /\ (boto3_client h (lit "textract") = Err e
      \/ boto3_client h (lit "s3") = Err e).
Proof.
  unfold extract_text_from_file_with_clients, bind, build_client.
  destruct (boto3_client h (lit "textract")) as [[]|e1].
  - destruct (boto3_client h (lit "s3")) as [[]|e2].
    + intros Hx. exfalso.
      exact (@extract_never_raises lower_nonascii sv fuel bucket key h e h' Hx).
    + intros Hx. injection Hx as <- <-. split; [reflexivity | now right].
  - intros Hx. injection Hx as <- <-. split; [reflexivity | now left].
Qed.

(** X6: an exception can leave the extraction only from the construction of
    one of its two clients, which stands before the [try] block: it does so
    before any call is made.  Whatever is raised afterwards comes back as
    the returned text.  And the extraction only ever calls the storage
    retrieval, the converter and the layout analysis: no clock, no metadata
    request, no index. *)
Theorem only_client_construction_escapes_extraction
    (fuel : nat) (bucket key : str) :
  emits_only strategy_event
    (extract_text_from_file_with_clients lower_nonascii sv boto3_client
       fuel bucket key)
  /\ forall h e h',
      extract_text_from_file_with_clients lower_nonascii sv boto3_client
        fuel bucket key h = Raised e h' ->
      h' = h
      /\ (boto3_client h (lit "textract") = Err e
          \/ boto3_client h (lit "s3") = Err e).
Proof.
  split.
  - unfold extract_text_from_file_with_clients.
    apply emits_only_bind; [apply build_client_emits|]. intros _.
    apply emits_only_bind; [apply build_client_emits|]. intros _.
    apply extract_strategy.
  - intros h e h'. apply extraction_raise_is_client.
Qed.

Lemma for_records_with_clients_app (fuel : nat)
    (before after : list s3_record) (h : history) :
  for_records_with_clients lower_nonascii sv boto3_client fuel
    (before ++ after) h
  = match for_records_with_clients lower_nonascii sv boto3_client fuel before h
    with
    | Returned _ h1 =>
        for_records_with_clients lower_nonascii sv boto3_client fuel after h1
    | Raised e h1 => Raised e h1
    | OutOfFuel h1 => OutOfFuel h1
    end.
Proof.
  revert h. induction before as [|r before IH]; intros h; [reflexivity|].
  cbn [app for_records_with_clients]. unfold bind.
  destruct (process_record_with_clients lower_nonascii sv boto3_client fuel r h);
    try reflexivity.
  apply IH.
Qed.

(** X16: unlike what is raised inside the extraction, a client that cannot
    be built is not turned into a text: when the layout-analysis client of
    a record cannot be built, the exception leaves the record before any
    call is made for it, the handler answers 500 with the message of that
    exception, and the records after it are never processed. *)
Theorem unbuildable_client_fails_the_batch
    (fuel : nat) (before after : list s3_record) (record : s3_record)
    (h h1 : history) (e : exn) :
  for_records_with_clients lower_nonascii sv boto3_client fuel before h
  = Returned tt h1 ->
  boto3_client h1 (lit "textract") = Err e ->
  lambda_handler_with_clients lower_nonascii sv boto3_client fuel
    (before ++ record :: after) h
  = Returned {| statusCode := 500;
                body := json_dumps (lit "Error processing document: "
                                    ++ exn_str e) |} h1.
Proof.
  intros Hbefore Hclient.
  unfold lambda_handler_with_clients, try_except. unfold bind at 1.
  rewrite for_records_with_clients_app, Hbefore.
  cbn [for_records_with_clients]. unfold bind at 1.
  unfold process_record_with_clients. unfold bind at 1.
  unfold extract_text_from_file_with_clients. unfold bind at 1.
  unfold build_client at 1. rewrite Hclient. reflexivity.
Qed.

(** With clients that can be built, the functions are those of the model
    that takes the clients for granted. *)
Lemma process_record_with_working_clients (fuel : nat) (bucket key : str)
    (h : history) :
  (forall h name, boto3_client h name = Ok tt) ->
  process_record_with_clients lower_nonascii sv boto3_client fuel
    {| bucket_name := bucket; object_key := key |} h
  = process_record lower_nonascii sv fuel
      {| bucket_name := bucket; object_key := key |} h.
Proof.
  intros Hok. rewrite process_record_commit.
  unfold process_record_with_clients, extract_text_from_file_with_clients.
  cbn [bucket_name object_key]. unfold bind, build_client. rewrite !Hok.
  destruct (extract_text_from_file lower_nonascii sv fuel bucket key h)
    as [text h1 | e h1 | h1]; try reflexivity.
  destruct (negb (truthy text)); [reflexivity|]. now rewrite Hok.
Qed.

Lemma lambda_handler_with_working_clients (fuel : nat)
    (records : list s3_record) (h : history) :
  (forall h name, boto3_client h name = Ok tt) ->
  lambda_handler_with_clients lower_nonascii sv boto3_client fuel records h
  = lambda_handler lower_nonascii sv fuel records h.
Proof.
  intros Hok. unfold lambda_handler_with_clients, lambda_handler, try_except.
  unfold bind.
  assert (Hfor : forall h,
             for_records_with_clients lower_nonascii sv boto3_client fuel
               records h
             = for_records lower_nonascii sv fuel records h).
  { induction records as [|[bucket key] rest IH]; intros h0; [reflexivity|].
    cbn [for_records_with_clients for_records]. unfold bind.
    rewrite (process_record_with_working_clients fuel bucket key h0 Hok).
    destruct (process_record lower_nonascii sv fuel _ h0); try reflexivity.
    apply IH. }
  now rewrite Hfor.
Qed.

(** X17: extraction failures never fail a batch: as long as every client can
    be built and the index accepts every commit, the handler answers 200
    whenever it answers, whatever storage, converter and layout analysis
    do. *)
Theorem handler_answers_200_when_clients_and_index_work
    (fuel : nat) (records : list s3_record) (h : history) :
  (forall h name, boto3_client h name = Ok tt) ->
  (forall h, get_opensearch_client sv h = Ok tt) ->
  (forall h index id doc, opensearch_index sv h index id doc = Ok tt) ->
  match lambda_handler_with_clients lower_nonascii sv boto3_client fuel
          records h with
  | Returned result _ =>
      result = {| statusCode := 200;
                  body := json_dumps (lit "Document processing complete") |}
  | Raised _ _ => False
  | OutOfFuel _ => True
  end.
Proof.
  intros Hclients Hclient Hindex.
  rewrite (lambda_handler_with_working_clients fuel records h Hclients).
  pose proof (@for_records_never_raises_when_index_accepts lower_nonascii sv
                fuel Hclient Hindex records h) as Hnever.
  unfold lambda_handler, try_except, bind.
  destruct (for_records lower_nonascii sv fuel records h) as [[] h1 | e h1 | h1].
  - reflexivity.
  - exfalso. exact (Hnever e h1 eq_refl).
  - exact I.
Qed.

End Clients.

Lemma only_client_construction_escapes_extraction_witness :
  @nil event = []
  /\ (no_region [] (lit "textract") = Err NoRegionError
      \/ no_region [] (lit "s3") = Err NoRegionError).
Proof.
  apply (proj2 (@only_client_construction_escapes_extraction keep_nonascii
                  sample no_region 0 (lit "docs") (lit "a.txt"))
           [] NoRegionError []).
  reflexivity.
Defined.

Lemma unbuildable_client_fails_the_batch_witness :
  lambda_handler_with_clients keep_nonascii sample no_region 0
    ([] ++ on "docs" "a.txt" :: [on "docs" "c.txt"]) []
  = Returned {| statusCode := 500;
                body := json_dumps (lit "Error processing document: "
                                    ++ exn_str NoRegionError) |} [].
Proof.
  apply (@unbuildable_client_fails_the_batch keep_nonascii sample no_region 0
           [] [on "docs" "c.txt"] (on "docs" "a.txt") [] [] NoRegionError);
    reflexivity.
Defined.

Lemma handler_answers_200_when_clients_and_index_work_witness :
  exists h,
    lambda_handler_with_clients keep_nonascii sample clients_ok 1
      [on "docs" "setup.exe"; on "docs" "scan.pdf"; on "docs" "missing.txt"] []
    = Returned {| statusCode := 200;
                  body := json_dumps (lit "Document processing complete") |} h.
Proof.
  pose proof (@handler_answers_200_when_clients_and_index_work keep_nonascii
                sample clients_ok 1
                [on "docs" "setup.exe"; on "docs" "scan.pdf";
                 on "docs" "missing.txt"] []
                (fun _ _ => eq_refl) (fun _ => eq_refl)
                (fun _ _ _ _ => eq_refl)) as H.
  destruct (lambda_handler_with_clients keep_nonascii sample clients_ok 1
              [on "docs" "setup.exe"; on "docs" "scan.pdf";
               on "docs" "missing.txt"] []) as [result h | e h | h] eqn:Hrun.
  - exists h. now rewrite H.
  - destruct H.
  - discriminate Hrun.
Defined.


End IngestionExtras.

(** * Properties of the query lambda *)

Module SearchFacts.
Import AiSearch.

Section Retry.
Variable sv : services.

Lemma first_text_history (items : list json) (h : history) :
  history_of (first_text items h) = h.
Proof.
  induction items as [|item rest IH]; [reflexivity|].
  destruct item; try reflexivity.
  cbn [first_text].
  destruct (match dict_get (lit "type") items with
            | Some v => json_is_str (lit "text") v
            | None => false
            end); [reflexivity | exact IH].
Qed.

(** Reading the response makes no call. *)
Lemma read_response_history (response_body : json) (h : history) :
  history_of (read_response response_body h) = h.
Proof.
  destruct response_body as [| | | | s | items | fields]; try reflexivity.
  - cbn [read_response]. destruct (contains _ s); reflexivity.
  - cbn [read_response]. destruct (existsb _ items); reflexivity.
  - cbn [read_response].
    destruct (dict_get (lit "content") fields) as [[]|]; try reflexivity.
    apply first_text_history.
Qed.

Lemma invocations_app (h t : history) :
  invocations (h ++ t) = invocations h + invocations t.
Proof. unfold invocations. now rewrite filter_app, length_app. Qed.

Lemma invocations_invoke (h : history) (model_id : str) (request : payload) :
  invocations (h ++ [InvokeModel model_id request]) = S (invocations h).
Proof. rewrite invocations_app. unfold invocations at 2. simpl. lia. Qed.

Lemma invocations_sleep (h : history) (seconds : N) :
  invocations (h ++ [Sleep seconds]) = invocations h.
Proof. rewrite invocations_app. unfold invocations at 2. simpl. lia. Qed.

(** Each iteration makes one call; there are at most [remaining] of them. *)
Lemma attempts_bound (max_retries : nat) (model_id : str) (request : payload)
    (remaining : nat) :
  forall (attempt : nat) (h : history),
    invocations (history_of (attempts sv remaining attempt max_retries
                               model_id request h))
    <= invocations h + remaining.
Proof.
  induction remaining as [|remaining IH]; intros attempt h.
  - cbn [attempts history_of ret]. lia.
  - assert (Hretry : forall e h1,
               invocations h1 = S (invocations h) ->
               invocations
                 (history_of
                    ((if caught e
                      then if Z.eqb (Z.of_nat attempt) (Z.of_nat max_retries - 1)
                           then ret (JString (lit "Error generating response from Bedrock."))
                           else bind (emit (Sleep (2 ^ N.of_nat attempt)))
                                  (fun _ => attempts sv remaining (S attempt)
                                              max_retries model_id request)
                      else raise e) h1))
               <= invocations h + S remaining).
    { intros e h1 Hh1. destruct (caught e).
      - destruct (Z.eqb _ _).
        + cbn [history_of ret]. lia.
        + unfold bind, emit. etransitivity; [apply IH|].
          rewrite invocations_sleep. lia.
      - cbn [history_of raise]. lia. }
    cbn [attempts]. unfold try_except, bind, call.
    destruct (invoke_model sv h model_id request) as [response_body|e].
    + pose proof (read_response_history response_body
                    (h ++ [InvokeModel model_id request])) as Hh.
      destruct (read_response response_body _) as [v h1 | e1 h1 | h1];
        cbn [history_of] in Hh; subst h1.
      * cbn [history_of]. rewrite invocations_invoke. lia.
      * apply Hretry, invocations_invoke.
      * cbn [history_of]. rewrite invocations_invoke. lia.
    + apply Hretry, invocations_invoke.
Qed.

(** One failed attempt. *)
Lemma attempts_failed (max_retries : nat) (model_id : str) (request : payload)
    (remaining attempt : nat) (h : history) (e : exn) :
  invoke_model sv h model_id request = Err e ->
  attempts sv (S remaining) attempt max_retries model_id request h
  = if caught e
    then if Z.eqb (Z.of_nat attempt) (Z.of_nat max_retries - 1)
         then Returned (JString (lit "Error generating response from Bedrock."))
                (h ++ [InvokeModel model_id request])
         else attempts sv remaining (S attempt) max_retries model_id request
                ((h ++ [InvokeModel model_id request])
                 ++ [Sleep (2 ^ N.of_nat attempt)])
    else Raised e (h ++ [InvokeModel model_id request]).
Proof.
  intros He. cbn [attempts]. unfold try_except, bind, call. rewrite He.
  destruct (caught e); [|reflexivity].
  destruct (Z.eqb _ _); reflexivity.
Qed.

(** C9, as the code has it: the generation call is made at most
    [max_retries] times (three by default); when each of the three attempts
    raises a ClientError or a Boto3Error the function sleeps one second, then
    two, between them and returns the string "Error generating response from
    Bedrock." instead of raising; an exception of another class is not
    caught: it leaves the function at the first attempt, with no retry. *)
Theorem bounded_retry_returns_error_string
    (query : str) (retrieved_docs : list hit) (h : history) :
  let request := build_payload query retrieved_docs in
  let invoke := InvokeModel (model_id_of sv) request in
  retrieved_docs <> [] ->
  (forall max_retries,
      invocations (history_of (generate_response sv query retrieved_docs
                                 max_retries h))
      <= invocations h + max_retries)
  /\ ((forall h', exists e,
          invoke_model sv h' (model_id_of sv) request = Err e
          /\ caught e = true) ->
      generate_response sv query retrieved_docs 3 h
      = Returned (JString (lit "Error generating response from Bedrock."))
          (h ++ [invoke; Sleep 1; invoke; Sleep 2; invoke]))
  /\ (forall e max_retries,
        invoke_model sv h (model_id_of sv) request = Err e ->
        caught e = false ->
        generate_response sv query retrieved_docs (S max_retries) h
        = Raised e (h ++ [invoke])).
Proof.
  intros request invoke Hdocs.
  assert (Hgen : forall n,
             generate_response sv query retrieved_docs n h
             = attempts sv n 0 n (model_id_of sv) request h).
  { intros n. unfold generate_response.
    destruct retrieved_docs; [contradiction | reflexivity]. }
  split; [|split].
  - intros n. rewrite Hgen. apply attempts_bound.
  - intros Hfail. rewrite Hgen.
    destruct (Hfail h) as [e0 [H0 C0]].
    rewrite (@attempts_failed 3 _ _ 2 0 _ _ H0), C0.
    change (Z.eqb (Z.of_nat 0) (Z.of_nat 3 - 1)) with false. cbv iota.
    destruct (Hfail ((h ++ [InvokeModel (model_id_of sv) request])
                     ++ [Sleep (2 ^ N.of_nat 0)])) as [e1 [H1 C1]].
    rewrite (@attempts_failed 3 _ _ 1 1 _ _ H1), C1.
    change (Z.eqb (Z.of_nat 1) (Z.of_nat 3 - 1)) with false. cbv iota.
    destruct (Hfail ((((h ++ [InvokeModel (model_id_of sv) request])
                       ++ [Sleep (2 ^ N.of_nat 0)])
                      ++ [InvokeModel (model_id_of sv) request])
                     ++ [Sleep (2 ^ N.of_nat 1)])) as [e2 [H2 C2]].
    rewrite (@attempts_failed 3 _ _ 0 2 _ _ H2), C2.
    change (Z.eqb (Z.of_nat 2) (Z.of_nat 3 - 1)) with true. cbv iota.
    rewrite <- !app_assoc. reflexivity.
  - intros e n He Hc. rewrite Hgen.
    rewrite (@attempts_failed (S n) _ _ n 0 _ _ He), Hc. reflexivity.
Qed.
End Retry.

Lemma bounded_retry_returns_error_string_witness :
  generate_response throttled (lit "How did revenue develop?") [q1_hit] 3 []
  = Returned (JString (lit "Error generating response from Bedrock."))
      (let invoke :=
         InvokeModel default_model_id
           (build_payload (lit "How did revenue develop?") [q1_hit]) in
       [invoke; Sleep 1; invoke; Sleep 2; invoke]).
Proof.
  refine (proj1 (proj2 (@bounded_retry_returns_error_string throttled
                          (lit "How did revenue develop?") [q1_hit] [] _)) _).
  - discriminate.
  - intros h'. exists Throttling. split; reflexivity.
Defined.

(** C9, counterexample: the endpoint cannot be reached, the exception is of
    neither caught class, and the function raises it instead of returning a
    string. *)
Lemma connection_error_is_raised :
  generate_response unreachable (lit "How did revenue develop?") [q1_hit] 3 []
  = Raised EndpointConnectionError
      [ InvokeModel default_model_id
          (build_payload (lit "How did revenue develop?") [q1_hit]) ].
Proof. reflexivity. Qed.

End SearchFacts.

(** * Further properties of the query lambda *)

Module SearchExtras.
Import AiSearch.
Import SearchFacts.

Section Generation.
Variable sv : services.

Lemma first_text_skips (pre : list json) :
  forallb other_item pre = true ->
  forall rest h, first_text (pre ++ rest) h = first_text rest h.
Proof.
  induction pre as [|item pre IH]; intros Hpre rest h; [reflexivity|].
  cbn [forallb] in Hpre. apply andb_true_iff in Hpre. destruct Hpre as [Hitem Hpre].
  destruct item as [| | | | | |fields]; try discriminate.
  cbn [app first_text]. unfold other_item in Hitem.
  destruct (dict_get (lit "type") fields) as [v|].
  - apply negb_true_iff in Hitem. rewrite Hitem. now apply IH.
  - now apply IH.
Qed.

Lemma generate_response_unfold (query : str) (retrieved_docs : list hit)
    (max_retries : nat) (h : history) :
  retrieved_docs <> [] ->
  generate_response sv query retrieved_docs max_retries h
  = attempts sv max_retries 0 max_retries (model_id_of sv)
      (build_payload query retrieved_docs) h.
Proof.
  intros Hdocs. unfold generate_response.
  destruct retrieved_docs; [contradiction | reflexivity].
Qed.

(** An attempt that is answered. *)
Lemma attempts_answered (max_retries : nat) (model_id : str) (request : payload)
    (remaining attempt : nat) (h : history) (response_body : json) :
  invoke_model sv h model_id request = Ok response_body ->
  (forall e h', read_response response_body (h ++ [InvokeModel model_id request])
                = Raised e h' -> caught e = false) ->
  attempts sv (S remaining) attempt max_retries model_id request h
  = read_response response_body (h ++ [InvokeModel model_id request]).
Proof.
  intros Hok Huncaught. cbn [attempts]. unfold try_except, bind, call.
  rewrite Hok.
  destruct (read_response response_body _) as [v h1 | e h1 | h1] eqn:Hread;
    try reflexivity.
  now rewrite (Huncaught e h1 eq_refl).
Qed.

(** Reading a response only raises the type and attribute errors, which the
    function does not catch. *)
Lemma read_response_raises_uncaught (response_body : json) (h : history) :
  forall e h', read_response response_body h = Raised e h' -> caught e = false.
Proof.
  assert (Hfirst : forall items e h',
             first_text items h = Raised e h' -> caught e = false).
  { induction items as [|item rest IH]; intros e h' Hr; [discriminate|].
    destruct item as [| | | | | |fields]; cbn [first_text] in Hr;
      try (injection Hr as <- _; reflexivity).
    destruct (match dict_get (lit "type") fields with
              | Some v => json_is_str (lit "text") v
              | None => false
              end); [discriminate | exact (IH e h' Hr)]. }
  intros e h' Hr.
  destruct response_body as [| | | | s | items | fields]; cbn [read_response] in Hr;
    try (injection Hr as <- _; reflexivity).
  - destruct (contains _ s); [injection Hr as <- _; reflexivity | discriminate].
  - destruct (existsb _ items); [injection Hr as <- _; reflexivity | discriminate].
  - destruct (dict_get (lit "content") fields) as [[]|]; try discriminate.
    exact (Hfirst items e h' Hr).
Qed.

(** X18: the answer of the model is read at the first attempt that succeeds: the
    function returns the "text" field of the first content item whose type
    is "text" (the empty string when that item has no such field), whatever
    comes before it has another type and is passed over, and the call is
    made once, with no sleep. *)
Theorem first_text_item_is_returned
    (query : str) (retrieved_docs : list hit) (max_retries : nat) (h : history)
    (fields item_fields : list (str * json)) (pre post : list json) (kind : json) :
  retrieved_docs <> [] ->
  invoke_model sv h (model_id_of sv) (build_payload query retrieved_docs)
  = Ok (JObject fields) ->
  dict_get (lit "content") fields
  = Some (JArray (pre ++ JObject item_fields :: post)) ->
  forallb other_item pre = true ->
  dict_get (lit "type") item_fields = Some kind ->
  json_is_str (lit "text") kind = true ->
  generate_response sv query retrieved_docs (S max_retries) h
  = Returned
      match dict_get (lit "text") item_fields with
      | Some text => text
      | None => JString []
      end
      (h ++ [InvokeModel (model_id_of sv) (build_payload query retrieved_docs)]).
Proof.
  intros Hdocs Hok Hcontent Hpre Hkind Htext.
  rewrite (generate_response_unfold query (S max_retries) h Hdocs).
  rewrite (@attempts_answered (S max_retries) _ _ max_retries 0 h _ Hok).
  - cbn [read_response]. rewrite Hcontent, (first_text_skips pre Hpre).
    cbn [first_text]. rewrite Hkind, Htext. reflexivity.
  - intros e h'. apply read_response_raises_uncaught.
Qed.

(** X19: an answer that cannot be read is not retried: when the response is an
    object whose "content" is missing, is not a list, or is a list of
    objects none of which has the type "text", the function returns "Error:
    Unable to parse model response." after that single call. *)
Theorem unreadable_answer_is_not_retried
    (query : str) (retrieved_docs : list hit) (max_retries : nat) (h : history)
    (fields : list (str * json)) :
  retrieved_docs <> [] ->
  invoke_model sv h (model_id_of sv) (build_payload query retrieved_docs)
  = Ok (JObject fields) ->
  match dict_get (lit "content") fields with
  | Some (JArray items) => forallb other_item items = true
  | _ => True
  end ->
  generate_response sv query retrieved_docs (S max_retries) h
  = Returned (JString (lit "Error: Unable to parse model response."))
      (h ++ [InvokeModel (model_id_of sv) (build_payload query retrieved_docs)]).
Proof.
  intros Hdocs Hok Hcontent.
  rewrite (generate_response_unfold query (S max_retries) h Hdocs).
  rewrite (@attempts_answered (S max_retries) _ _ max_retries 0 h _ Hok).
  - cbn [read_response].
    destruct (dict_get (lit "content") fields) as [[| | | | |items|]|];
      try reflexivity.
    rewrite <- (app_nil_r items), (first_text_skips items Hcontent). reflexivity.
  - intros e h'. apply read_response_raises_uncaught.
Qed.

Lemma failed_attempts_shift (model_id : str) (request : payload)
    (h : history) (attempt k : nat) :
  ((h ++ [InvokeModel model_id request]) ++ [Sleep (2 ^ N.of_nat attempt)])
  ++ failed_attempts model_id request (S attempt) k
  = h ++ failed_attempts model_id request attempt (S k).
Proof. cbn [failed_attempts]. now rewrite <- !app_assoc. Qed.

(** Failed attempts that are not the last one are slept over. *)
Lemma attempts_after_failures (max_retries : nat) (model_id : str)
    (request : payload) (n : nat) :
  forall (attempt remaining : nat) (h : history),
    (forall k, k < n -> exists e,
        invoke_model sv (h ++ failed_attempts model_id request attempt k)
          model_id request = Err e
        /\ caught e = true) ->
    attempt + remaining = max_retries ->
    n < remaining ->
    attempts sv remaining attempt max_retries model_id request h
    = attempts sv (remaining - n) (attempt + n) max_retries model_id request
        (h ++ failed_attempts model_id request attempt n).
Proof.
  induction n as [|n IH]; intros attempt remaining h Hfail Hsum Hlt.
  - cbn [failed_attempts]. now rewrite Nat.sub_0_r, Nat.add_0_r, app_nil_r.
  - destruct remaining as [|remaining]; [lia|].
    destruct (Hfail 0) as [e [He Hc]]; [lia|].
    cbn [failed_attempts] in He. rewrite app_nil_r in He.
    rewrite (@attempts_failed sv max_retries _ _ remaining attempt h e He), Hc.
    assert (Hnot_last : Z.eqb (Z.of_nat attempt) (Z.of_nat max_retries - 1) = false)
      by (apply Z.eqb_neq; lia).
    rewrite Hnot_last.
    rewrite (IH (S attempt) remaining).
    + rewrite failed_attempts_shift. f_equal. lia.
    + intros k Hk. destruct (Hfail (S k)) as [e' [He' Hc']]; [lia|].
      exists e'. split; [|exact Hc']. now rewrite failed_attempts_shift.
    + lia.
    + lia.
Qed.

(** X20: retrying works: when the first [n] attempts raise a ClientError or a
    Boto3Error and attempt [n + 1] is still within [max_retries] and is
    answered, the function has slept 1, 2, 4, ... seconds after the failures
    and gives what it reads from that answer. *)
Theorem answer_after_failures_is_read
    (query : str) (retrieved_docs : list hit) (max_retries n : nat)
    (h : history) (response_body : json) :
  let model_id := model_id_of sv in
  let request := build_payload query retrieved_docs in
  retrieved_docs <> [] ->
  (forall k, k < n -> exists e,
      invoke_model sv (h ++ failed_attempts model_id request 0 k)
        model_id request = Err e
      /\ caught e = true) ->
  invoke_model sv (h ++ failed_attempts model_id request 0 n) model_id request
  = Ok response_body ->
  n < max_retries ->
  generate_response sv query retrieved_docs max_retries h
  = read_response response_body
      ((h ++ failed_attempts model_id request 0 n)
       ++ [InvokeModel model_id request]).
Proof.
  intros model_id request Hdocs Hfail Hok Hlt.
  rewrite (generate_response_unfold query max_retries h Hdocs).
  fold model_id. fold request.
  rewrite (@attempts_after_failures max_retries model_id request n 0
             max_retries h Hfail eq_refl Hlt).
  destruct (max_retries - n) as [|remaining] eqn:Hrem; [lia|].
  apply (@attempts_answered max_retries model_id request remaining (0 + n)
           _ response_body Hok).
  intros e h'. apply read_response_raises_uncaught.
Qed.

Lemma slept_app (h t : history) : slept (h ++ t) = (slept h + slept t)%N.
Proof.
  induction h as [|ev h IH]; [reflexivity|].
  cbn [app slept fold_right]. fold (slept (h ++ t)). fold (slept h).
  rewrite IH. destruct ev; lia.
Qed.

Lemma pow2_le (a b : nat) : a <= b -> (2 ^ N.of_nat a <= 2 ^ N.of_nat b)%N.
Proof. intros H. apply N.pow_le_mono_r; lia. Qed.

(** The sleeps of the remaining iterations fit under the last back-off. *)
Lemma attempts_sleep_bound (max_retries : nat) (model_id : str)
    (request : payload) (remaining : nat) :
  forall (attempt : nat) (h : history),
    attempt + S remaining = max_retries ->
    (slept (history_of (attempts sv (S remaining) attempt max_retries
                          model_id request h))
     + 2 ^ N.of_nat attempt
     <= slept h + 2 ^ N.of_nat (pred max_retries))%N.
Proof.
  induction remaining as [|remaining IH]; intros attempt h Hsum.
  - assert (Hlast : Z.eqb (Z.of_nat attempt) (Z.of_nat max_retries - 1) = true)
      by (apply Z.eqb_eq; lia).
    assert (Hpow : (2 ^ N.of_nat attempt <= 2 ^ N.of_nat (pred max_retries))%N)
      by (apply pow2_le; lia).
    cbn [attempts]. unfold try_except, bind, call.
    destruct (invoke_model sv h model_id request) as [response_body|e].
    + pose proof (read_response_history response_body
                    (h ++ [InvokeModel model_id request])) as Hh.
      destruct (read_response response_body _) as [v h1 | e1 h1 | h1];
        cbn [history_of] in Hh; subst h1.
      * cbn [history_of]. rewrite slept_app. cbn. lia.
      * rewrite Hlast. destruct (caught e1); cbn [history_of ret raise];
          rewrite slept_app; cbn; lia.
      * cbn [history_of]. rewrite slept_app. cbn. lia.
    + rewrite Hlast. destruct (caught e); cbn [history_of ret raise];
        rewrite slept_app; cbn; lia.
  - assert (Hpow : (2 ^ N.of_nat attempt <= 2 ^ N.of_nat (pred max_retries))%N)
      by (apply pow2_le; lia).
    assert (Hnot_last : Z.eqb (Z.of_nat attempt) (Z.of_nat max_retries - 1) = false)
      by (apply Z.eqb_neq; lia).
    assert (Hretry : forall h1,
               slept h1 = slept h ->
               (slept (history_of
                         (bind (emit (Sleep (2 ^ N.of_nat attempt)))
                            (fun _ => attempts sv (S remaining) (S attempt)
                                        max_retries model_id request) h1))
                + 2 ^ N.of_nat attempt
                <= slept h + 2 ^ N.of_nat (pred max_retries))%N).
    { intros h1 Hh1. unfold bind, emit.
      pose proof (IH (S attempt) (h1 ++ [Sleep (2 ^ N.of_nat attempt)])
                    ltac:(lia)) as Hrec.
      rewrite slept_app, Hh1 in Hrec. cbn [slept fold_right] in Hrec.
      replace (2 ^ N.of_nat (S attempt))%N with (2 * 2 ^ N.of_nat attempt)%N
        in Hrec by (rewrite Nat2N.inj_succ, N.pow_succ_r'; reflexivity).
      lia. }
    assert (Hinvoke : slept (h ++ [InvokeModel model_id request]) = slept h)
      by (rewrite slept_app; cbn; lia).
    cbn [attempts]. unfold try_except, call. unfold bind at 1.
    destruct (invoke_model sv h model_id request) as [response_body|e].
    + pose proof (read_response_history response_body
                    (h ++ [InvokeModel model_id request])) as Hh.
      destruct (read_response response_body _) as [v h1 | e1 h1 | h1];
        cbn [history_of] in Hh; subst h1.
      * cbn [history_of]. rewrite Hinvoke. lia.
      * rewrite Hnot_last. destruct (caught e1).
        -- apply Hretry, Hinvoke.
        -- cbn [history_of raise]. rewrite Hinvoke. lia.
      * cbn [history_of]. rewrite Hinvoke. lia.
    + rewrite Hnot_last. destruct (caught e).
      * apply Hretry, Hinvoke.
      * cbn [history_of raise]. rewrite Hinvoke. lia.
Qed.

(** X21: the back-off is bounded: whatever the generation service does, one call
    of the function sleeps less than [2 ^ (max_retries - 1)] seconds in all,
    that is at most three seconds with the default of three attempts, and it
    never sleeps after its last attempt. *)
Theorem total_backoff_is_bounded
    (query : str) (retrieved_docs : list hit) (max_retries : nat) (h : history) :
  (slept (history_of (generate_response sv query retrieved_docs max_retries h))
   < slept h + 2 ^ N.of_nat (pred max_retries))%N.
Proof.
  unfold generate_response.
  assert (Hpos : (0 < 2 ^ N.of_nat (pred max_retries))%N)
    by (apply N.neq_0_lt_0, N.pow_nonzero; lia).
  destruct retrieved_docs as [|doc docs]; [cbn [history_of ret]; lia|].
  destruct max_retries as [|remaining]; [cbn [attempts history_of ret]; lia|].
  pose proof (@attempts_sleep_bound (S remaining)
                (match environ_model_id sv with
                 | Some m => m
                 | None => default_model_id
                 end)
                (build_payload query (doc :: docs)) remaining 0 h eq_refl) as Hb.
  change (2 ^ N.of_nat 0)%N with 1%N in Hb. lia.
Qed.

(** X22: the function never lets a ClientError or a Boto3Error out: an exception
    that leaves it is of another class. *)
Theorem caught_classes_never_escape
    (query : str) (retrieved_docs : list hit) (max_retries : nat)
    (h h' : history) (e : exn) :
  generate_response sv query retrieved_docs max_retries h = Raised e h' ->
  caught e = false.
Proof.
  unfold generate_response.
  destruct retrieved_docs as [|doc docs]; [discriminate|].
  generalize (build_payload query (doc :: docs)) as request.
  generalize (match environ_model_id sv with
              | Some m => m
              | None => default_model_id
              end) as model_id.
  intros model_id request.
  generalize 0 at 1 as attempt. generalize max_retries at 1 as remaining.
  intros remaining. revert h.
  induction remaining as [|remaining IH]; intros h attempt Hr; [discriminate|].
  cbn [attempts] in Hr. unfold try_except, call in Hr. unfold bind at 1 in Hr.
  assert (Hhandler : forall e1 h1,
             (if caught e1
              then if Z.eqb (Z.of_nat attempt) (Z.of_nat max_retries - 1)
                   then ret (JString (lit "Error generating response from Bedrock."))
                   else bind (emit (Sleep (2 ^ N.of_nat attempt)))
                          (fun _ => attempts sv remaining (S attempt)
                                      max_retries model_id request)
              else raise e1) h1 = Raised e h' ->
             caught e = false).
  { intros e1 h1 H1. destruct (caught e1) eqn:Hc.
    - destruct (Z.eqb _ _); [discriminate|].
      unfold bind, emit in H1. exact (IH _ _ H1).
    - injection H1 as <- _. exact Hc. }
  destruct (invoke_model sv h model_id request) as [response_body|e0].
  - destruct (read_response response_body _) as [v h1 | e1 h1 | h1];
      try discriminate.
    exact (Hhandler e1 h1 Hr).
  - exact (Hhandler e0 _ Hr).
Qed.
End Generation.

Lemma first_text_item_is_returned_witness :
  generate_response (recovering 0) (lit "How did revenue develop?") [q1_hit] 3 []
  = Returned (JString (lit "Revenue grew by ten percent."))
      [ InvokeModel (lit "anthropic.claude-3-haiku")
          (build_payload (lit "How did revenue develop?") [q1_hit]) ].
Proof.
  refine (@first_text_item_is_returned (recovering 0)
            (lit "How did revenue develop?") [q1_hit] 2 []
            _ _ [JObject [(lit "type", JString (lit "tool_use"))]]
            [text_item "unused"] (JString (lit "text")) _ eq_refl eq_refl
            eq_refl eq_refl eq_refl).
  discriminate.
Defined.

Section QueryHandler.
Variable json_loads : str -> reply json.
Variable float_is_zero : str -> bool.
Variable python_str : json -> str.
Variable env : process_env.
Variable search : client -> json -> nat -> search_answer.
Variable sv : services.

(** What the handler does with a well-formed request. *)
Lemma handler_on_query (event : list (str * json)) (query : json) (h : history) :
  well_formed json_loads float_is_zero event query ->
  lambda_handler json_loads float_is_zero python_str env search sv event h
  = match get_opensearch_client env with
    | Err e => Returned {| statusCode := 500; body := ErrorMessage (exn_str e) |} h
    | Ok c =>
        match retrieve_docs search query c 5 with
        | Err e =>
            Returned {| statusCode := 500; body := ErrorMessage (exn_str e) |} h
        | Ok retrieved_docs =>
            match generate_response sv (format_query python_str query)
                    retrieved_docs 3 h with
            | Returned ai_response h1 =>
                Returned {| statusCode := 200;
                            body := Answer query ai_response retrieved_docs |} h1
            | Raised e h1 =>
                Returned {| statusCode := 500;
                            body := ErrorMessage (exn_str e) |} h1
            | OutOfFuel h1 => OutOfFuel h1
            end
        end
    end.
Proof.
  intros [text [fields [Hbody [Htext [Hparse [Hquery Htruthy]]]]]].
  unfold lambda_handler, try_except. rewrite Hbody.
  destruct text as [|c0 text]; [contradiction|].
  cbn [json_truthy truthy negb]. unfold bind at 1. unfold answered at 1.
  rewrite Hparse. unfold bind at 1. unfold ret at 1. rewrite Hquery, Htruthy.
  cbn [negb]. unfold bind at 1. unfold answered at 1.
  destruct (get_opensearch_client env) as [c|e]; [|reflexivity].
  unfold bind at 1. unfold answered at 1.
  destruct (retrieve_docs search query c 5) as [docs|e]; [|reflexivity].
  unfold bind.
  destruct (generate_response sv (format_query python_str query) docs 3 h);
    reflexivity.
Qed.

(** X23: a request without a usable body or query is refused before anything is
    asked of the index or of the model: 400 "Missing request body" when the
    event has no body or an empty one, 400 "Missing 'query' parameter" when
    the body parses to an object with no query or an empty one. *)
Theorem incomplete_request_is_answered_400
    (event : list (str * json)) (h : history) :
  (match dict_get (lit "body") event with
   | None => True
   | Some raw => json_truthy float_is_zero raw = false
   end ->
   lambda_handler json_loads float_is_zero python_str env search sv event h
   = Returned {| statusCode := 400;
                 body := ErrorMessage (lit "Missing request body") |} h)
  /\ (forall text fields,
        dict_get (lit "body") event = Some (JString text) ->
        text <> [] ->
        json_loads text = Ok (JObject fields) ->
        match dict_get (lit "query") fields with
        | None => True
        | Some query => json_truthy float_is_zero query = false
        end ->
        lambda_handler json_loads float_is_zero python_str env search sv event h
        = Returned {| statusCode := 400;
                      body := ErrorMessage (lit "Missing 'query' parameter") |} h).
Proof.
  split.
  - intros Hbody. unfold lambda_handler, try_except.
    destruct (dict_get (lit "body") event) as [raw|]; [|reflexivity].
    rewrite Hbody. reflexivity.
  - intros text fields Hbody Htext Hparse Hquery.
    unfold lambda_handler, try_except. rewrite Hbody.
    destruct text as [|c0 text]; [contradiction|].
    cbn [json_truthy truthy negb]. unfold bind at 1. unfold answered at 1.
    rewrite Hparse. unfold bind at 1. unfold ret at 1.
    destruct (dict_get (lit "query") fields) as [query|]; [|reflexivity].
    rewrite Hquery. reflexivity.
Qed.

(** X24: a search that fails with an OpenSearchException does not fail the
    request: the handler answers 200 with "No relevant documents found." and
    no sources, and the model is never called. *)
Theorem failed_search_is_answered_without_generation
    (event : list (str * json)) (query : json) (h : history)
    (c : client) (message : str) :
  well_formed json_loads float_is_zero event query ->
  get_opensearch_client env = Ok c ->
  search c query 5 = OpenSearchException message ->
  lambda_handler json_loads float_is_zero python_str env search sv event h
  = Returned {| statusCode := 200;
                body := Answer query
                          (JString (lit "No relevant documents found.")) [] |} h.
Proof.
  intros Hwf Hclient Hsearch.
  rewrite (handler_on_query h Hwf), Hclient.
  unfold retrieve_docs. rewrite Hsearch. reflexivity.
Qed.

(** X25: with credentials but without the OPENSEARCH_DOMAIN variable, every
    well-formed request is answered 500 with the name of the variable as the
    error, before any search and any call of the model. *)
Theorem missing_domain_is_answered_500
    (event : list (str * json)) (query : json) (h : history) (c : credentials) :
  well_formed json_loads float_is_zero event query ->
  session_credentials env = Ok (Some c) ->
  OPENSEARCH_DOMAIN env = None ->
  lambda_handler json_loads float_is_zero python_str env search sv event h
  = Returned {| statusCode := 500;
                body := ErrorMessage (lit "'OPENSEARCH_DOMAIN'") |} h.
Proof.
  intros Hwf Hcred Hdomain.
  rewrite (handler_on_query h Hwf).
  unfold get_opensearch_client. rewrite Hcred, Hdomain. reflexivity.
Qed.

(** X26: an exception that leaves the generation, which only one of a class the
    retry loop does not catch can do, is answered 500 with its message. *)
Theorem uncaught_generation_error_is_answered_500
    (event : list (str * json)) (query : json) (h : history)
    (c : client) (retrieved_docs : list hit) (e : exn) :
  well_formed json_loads float_is_zero event query ->
  get_opensearch_client env = Ok c ->
  search c query 5 = Hits retrieved_docs ->
  retrieved_docs <> [] ->
  invoke_model sv h (model_id_of sv)
    (build_payload (format_query python_str query) retrieved_docs) = Err e ->
  caught e = false ->
  lambda_handler json_loads float_is_zero python_str env search sv event h
  = Returned {| statusCode := 500; body := ErrorMessage (exn_str e) |}
      (h ++ [InvokeModel (model_id_of sv)
               (build_payload (format_query python_str query) retrieved_docs)]).
Proof.
  intros Hwf Hclient Hsearch Hdocs Hinvoke Hclass.
  rewrite (handler_on_query h Hwf), Hclient.
  unfold retrieve_docs. rewrite Hsearch.
  rewrite (generate_response_unfold sv (format_query python_str query) 3 h Hdocs).
  rewrite (@attempts_failed sv 3 _ _ 2 0 h e Hinvoke), Hclass. reflexivity.
Qed.

(** X27: when the model stays unavailable the request still succeeds: after
    three attempts that raise a ClientError or a Boto3Error the handler
    answers 200, and the error string of the generation stands where the
    answer would be, next to the sources found. *)
Theorem exhausted_retries_are_answered_200
    (event : list (str * json)) (query : json) (h : history)
    (c : client) (retrieved_docs : list hit) :
  let model_id := model_id_of sv in
  let request := build_payload (format_query python_str query) retrieved_docs in
  well_formed json_loads float_is_zero event query ->
  get_opensearch_client env = Ok c ->
  search c query 5 = Hits retrieved_docs ->
  retrieved_docs <> [] ->
  (forall h', exists e,
      invoke_model sv h' model_id request = Err e /\ caught e = true) ->
  lambda_handler json_loads float_is_zero python_str env search sv event h
  = Returned
      {| statusCode := 200;
         body := Answer query
                   (JString (lit "Error generating response from Bedrock."))
                   retrieved_docs |}
      (h ++ failed_attempts model_id request 0 2 ++ [InvokeModel model_id request]).
Proof.
  intros model_id request Hwf Hclient Hsearch Hdocs Hfail.
  rewrite (handler_on_query h Hwf), Hclient.
  unfold retrieve_docs. rewrite Hsearch.
  rewrite (generate_response_unfold sv (format_query python_str query) 3 h Hdocs).
  fold model_id. fold request.
  rewrite (@attempts_after_failures sv 3 model_id request 2 0 3 h
             (fun k _ => Hfail _) eq_refl ltac:(lia)).
  destruct (Hfail (h ++ failed_attempts model_id request 0 2)) as [e [He Hc]].
  cbn [Nat.sub Nat.add].
  rewrite (@attempts_failed sv 3 _ _ 0 2 _ e He), Hc.
  change (Z.eqb (Z.of_nat 2) (Z.of_nat 3 - 1)) with true. cbv iota.
  now rewrite <- app_assoc.
Qed.

Lemma attempts_terminate (max_retries : nat) (model_id : str)
    (request : payload) (remaining : nat) :
  forall attempt h h',
    attempts sv remaining attempt max_retries model_id request h <> OutOfFuel h'.
Proof.
  assert (Hread : forall b h h', read_response b h <> OutOfFuel h').
  { assert (Hfirst : forall items h h', first_text items h <> OutOfFuel h').
    { induction items as [|item rest IH]; intros h h'; [discriminate|].
      destruct item as [| | | | | |fields]; try discriminate.
      cbn [first_text].
      destruct (match dict_get (lit "type") fields with
                | Some v => json_is_str (lit "text") v
                | None => false
                end); [discriminate | apply IH]. }
    intros b h h'.
    destruct b as [| | | | s | items | fields]; cbn [read_response];
      try discriminate.
    - destruct (contains _ s); discriminate.
    - destruct (existsb _ items); discriminate.
    - destruct (dict_get (lit "content") fields) as [[]|]; try discriminate.
      apply Hfirst. }
  induction remaining as [|remaining IH]; intros attempt h h'; [discriminate|].
  cbn [attempts]. unfold try_except, call. unfold bind at 1.
  assert (Hhandler : forall e1 h1,
             (if caught e1
              then if Z.eqb (Z.of_nat attempt) (Z.of_nat max_retries - 1)
                   then ret (JString (lit "Error generating response from Bedrock."))
                   else bind (emit (Sleep (2 ^ N.of_nat attempt)))
                          (fun _ => attempts sv remaining (S attempt)
                                      max_retries model_id request)
              else raise e1) h1 <> OutOfFuel h').
  { intros e1 h1. destruct (caught e1); [|discriminate].
    destruct (Z.eqb _ _); [discriminate|]. unfold bind, emit. apply IH. }
  destruct (invoke_model sv h model_id request) as [response_body|e0].
  - pose proof (Hread response_body (h ++ [InvokeModel model_id request]))
      as Hnot.
    destruct (read_response response_body _) as [v h1 | e1 h1 | h1].
    + discriminate.
    + apply Hhandler.
    + exfalso. exact (Hnot h1 eq_refl).
  - apply Hhandler.
Qed.

(** X28: the handler always answers, and always with one of three status codes:
    whatever the event, the parser, the index and the model do, it returns a
    response whose status is 200, 400 or 500 and never raises. *)
Theorem handler_always_answers (event : list (str * json)) (h : history) :
  exists result h',
    lambda_handler json_loads float_is_zero python_str env search sv event h
    = Returned result h'
    /\ (statusCode result = 200%Z \/ statusCode result = 400%Z
        \/ statusCode result = 500%Z).
Proof.
  unfold lambda_handler, try_except.
  destruct (dict_get (lit "body") event) as [raw|];
    [|eexists; eexists; split; [reflexivity | cbn; auto]].
  destruct (negb (json_truthy float_is_zero raw));
    [eexists; eexists; split; [reflexivity | cbn; auto]|].
  unfold bind at 1. unfold answered at 1.
  destruct (match raw with JString s => json_loads s | _ => _ end) as [parsed|e];
    [|eexists; eexists; split; [reflexivity | cbn; auto]].
  unfold bind at 1.
  destruct parsed as [| | | | | |fields];
    try (eexists; eexists; split; [reflexivity | cbn; auto]).
  unfold ret at 1.
  destruct (dict_get (lit "query") fields) as [query|];
    [|eexists; eexists; split; [reflexivity | cbn; auto]].
  destruct (negb (json_truthy float_is_zero query));
    [eexists; eexists; split; [reflexivity | cbn; auto]|].
  unfold bind at 1. unfold answered at 1.
  destruct (get_opensearch_client env) as [c|e];
    [|eexists; eexists; split; [reflexivity | cbn; auto]].
  unfold bind at 1. unfold answered at 1.
  destruct (retrieve_docs search query c 5) as [docs|e];
    [|eexists; eexists; split; [reflexivity | cbn; auto]].
  unfold bind.
  destruct (generate_response sv (format_query python_str query) docs 3 h)
    as [ai h1 | e h1 | h1] eqn:Hgen;
    try (eexists; eexists; split; [reflexivity | cbn; auto]).
  exfalso. unfold generate_response in Hgen.
  destruct docs; [discriminate|].
  exact (@attempts_terminate 3 _ _ 3 0 h h1 Hgen).
Qed.
End QueryHandler.

Lemma revenue_request_well_formed :
  well_formed two_bodies no_float_is_zero (request revenue_body)
    (JString (lit "How did revenue develop?")).
Proof.
  exists revenue_body, [ (lit "query", JString (lit "How did revenue develop?")) ].
  split; [reflexivity|]. split; [discriminate|].
  split; [reflexivity|]. split; reflexivity.
Qed.

Lemma incomplete_request_is_answered_400_witness :
  lambda_handler two_bodies no_float_is_zero unused_str configured finds_q1
    throttled [ (lit "httpMethod", JString (lit "POST")) ] []
  = Returned {| statusCode := 400;
                body := ErrorMessage (lit "Missing request body") |} []
  /\ lambda_handler two_bodies no_float_is_zero unused_str configured finds_q1
       throttled (request (lit "{}")) []
     = Returned {| statusCode := 400;
                   body := ErrorMessage (lit "Missing 'query' parameter") |} [].
Proof.
  split.
  - apply (proj1 (@incomplete_request_is_answered_400 two_bodies no_float_is_zero
                    unused_str configured finds_q1 throttled
                    [ (lit "httpMethod", JString (lit "POST")) ] [])).
    exact I.
  - apply (proj2 (@incomplete_request_is_answered_400 two_bodies no_float_is_zero
                    unused_str configured finds_q1 throttled
                    (request (lit "{}")) []) (lit "{}") []).
    + reflexivity.
    + discriminate.
    + reflexivity.
    + exact I.
Defined.

Lemma failed_search_is_answered_without_generation_witness :
  lambda_handler two_bodies no_float_is_zero unused_str configured index_down
    throttled (request revenue_body) []
  = Returned {| statusCode := 200;
                body := Answer (JString (lit "How did revenue develop?"))
                          (JString (lit "No relevant documents found.")) [] |} [].
Proof.
  eapply (@failed_search_is_answered_without_generation two_bodies
            no_float_is_zero unused_str configured index_down throttled).
  - exact revenue_request_well_formed.
  - reflexivity.
  - reflexivity.
Defined.

Lemma missing_domain_is_answered_500_witness :
  lambda_handler two_bodies no_float_is_zero unused_str without_domain finds_q1
    throttled (request revenue_body) []
  = Returned {| statusCode := 500;
                body := ErrorMessage (lit "'OPENSEARCH_DOMAIN'") |} [].
Proof.
  eapply (@missing_domain_is_answered_500 two_bodies no_float_is_zero unused_str
            without_domain finds_q1 throttled).
  - exact revenue_request_well_formed.
  - reflexivity.
  - reflexivity.
Defined.

Lemma uncaught_generation_error_is_answered_500_witness :
  lambda_handler two_bodies no_float_is_zero unused_str configured finds_q1
    unreachable (request revenue_body) []
  = Returned {| statusCode := 500;
                body := ErrorMessage (exn_str EndpointConnectionError) |}
      [ InvokeModel default_model_id
          (build_payload (lit "How did revenue develop?") [q1_hit]) ].
Proof.
  eapply (@uncaught_generation_error_is_answered_500 two_bodies no_float_is_zero
            unused_str configured finds_q1 unreachable (request revenue_body)
            (JString (lit "How did revenue develop?")) []).
  - exact revenue_request_well_formed.
  - reflexivity.
  - reflexivity.
  - discriminate.
  - reflexivity.
  - reflexivity.
Defined.

Lemma exhausted_retries_are_answered_200_witness :
  lambda_handler two_bodies no_float_is_zero unused_str configured finds_q1
    throttled (request revenue_body) []
  = Returned
      {| statusCode := 200;
         body := Answer (JString (lit "How did revenue develop?"))
                   (JString (lit "Error generating response from Bedrock."))
                   [q1_hit] |}
      (let invoke :=
         InvokeModel default_model_id
           (build_payload (lit "How did revenue develop?") [q1_hit]) in
       [invoke; Sleep 1; invoke; Sleep 2; invoke]).
Proof.
  eapply (@exhausted_retries_are_answered_200 two_bodies no_float_is_zero
            unused_str configured finds_q1 throttled (request revenue_body)
            (JString (lit "How did revenue develop?")) []).
  - exact revenue_request_well_formed.
  - reflexivity.
  - reflexivity.
  - discriminate.
  - intros h'. exists Throttling. split; reflexivity.
Defined.

Lemma unreadable_answer_is_not_retried_witness :
  generate_response garbled (lit "How did revenue develop?") [q1_hit] 3 []
  = Returned (JString (lit "Error: Unable to parse model response."))
      [ InvokeModel default_model_id
          (build_payload (lit "How did revenue develop?") [q1_hit]) ].
Proof.
  refine (@unreadable_answer_is_not_retried garbled
            (lit "How did revenue develop?") [q1_hit] 2 []
            [ (lit "message", JString (lit "overloaded")) ] _ eq_refl I).
  discriminate.
Defined.

Lemma answer_after_failures_is_read_witness :
  generate_response (recovering 4) (lit "How did revenue develop?") [q1_hit] 3 []
  = Returned (JString (lit "Revenue grew by ten percent."))
      (let invoke :=
         InvokeModel (lit "anthropic.claude-3-haiku")
           (build_payload (lit "How did revenue develop?") [q1_hit]) in
       [invoke; Sleep 1; invoke; Sleep 2; invoke]).
Proof.
  refine (@answer_after_failures_is_read (recovering 4)
            (lit "How did revenue develop?") [q1_hit] 3 2 [] model_answer
            _ _ eq_refl _).
  - discriminate.
  - intros [|[|k]] Hk.
    + exists Throttling. split; reflexivity.
    + exists Throttling. split; reflexivity.
    + lia.
  - lia.
Defined.

Lemma caught_classes_never_escape_witness :
  caught EndpointConnectionError = false.
Proof.
  apply (@caught_classes_never_escape unreachable
           (lit "How did revenue develop?") [q1_hit] 3 []
           [ InvokeModel default_model_id
               (build_payload (lit "How did revenue develop?") [q1_hit]) ]).
  reflexivity.
Defined.

End SearchExtras.
